(** * IXR-flow dashboard: the per-tick metric pipeline of [IXRDashboard._update]

    Shallow embedding of [src/ixr_flow/gui/ixrdashboard.py].

    - Numbers are IEEE 754 binary64 values ([spec_float] with precision 53 and
      maximal exponent 1024), the arithmetic of Python's [float] and of
      [numpy.float64]: every operation below is the correctly rounded one,
      with infinities and NaN.
    - Python exceptions are the [Raise] case of an error monad.
    - The sample source ([BoardShim]) and the brainflow signal-processing
      routines ([DataFilter]) are outside the repository: a tick receives them
      as a snapshot of the source and as a record of functions.
    - Plotting calls ([setData], [setOpts], [processEvents]) have no effect on
      the dashboard's attributes; of the sinks only the values handed to them
      are kept, and of the plotting code only the lookup of a pen in
      [colors], which can raise.
    - Of the construction of the window ([_init_pens], [_init_timeseries],
      [_init_psd]) the lists of curves are kept, which a tick indexes. *)

From Stdlib Require Import ZArith Lia Floats.SpecFloat.
From stdpp Require Import base list strings.

(** ** binary64 arithmetic *)

Definition float : Type := spec_float.

Module F64.

Definition prec : Z := 53.
Definition emax : Z := 1024.

Definition add : float -> float -> float := SFadd prec emax.
Definition sub : float -> float -> float := SFsub prec emax.
Definition mul : float -> float -> float := SFmul prec emax.
Definition div : float -> float -> float := SFdiv prec emax.
Definition sqrt : float -> float := SFsqrt prec emax.
Definition abs : float -> float := SFabs.

Definition ltb : float -> float -> bool := SFltb.
Definition leb : float -> float -> bool := SFleb.
Definition eqb : float -> float -> bool := SFeqb.

(** Conversion of a Python [int], rounding to nearest even. *)
Definition of_Z (z : Z) : float := binary_normalize prec emax z 0 false.
Definition of_nat (n : nat) : float := of_Z (Z.of_nat n).

(** The decimal literal [a / b] for small integers [a] and [b]: the binary64
    value nearest to the quotient, which is what the correctly rounded
    division of two exactly represented integers returns. *)
Definition lit (a b : Z) : float := div (of_Z a) (of_Z b).

Definition zero : float := S754_zero false.
Definition one : float := of_Z 1.
Definition nan : float := S754_nan.

Definition is_nan (x : float) : bool :=
  match x with S754_nan => true | _ => false end.

Definition is_finite (x : float) : bool :=
  match x with S754_zero _ | S754_finite _ _ _ => true | _ => false end.

Definition is_zero (x : float) : bool :=
  match x with S754_zero _ => true | _ => false end.

(** Sign bit clear (NaN counts as unsigned). *)
Definition nonneg (x : float) : bool :=
  match x with
  | S754_zero s | S754_infinity s | S754_finite s _ _ => negb s
  | S754_nan => true
  end.

(** The integer part of a finite value, rounding toward zero, and its floor.
    [Z.shiftl] by a negative amount is the floor of the division by a power
    of two. *)
Definition trunc (x : float) : option Z :=
  match x with
  | S754_zero _ => Some 0%Z
  | S754_finite s m e => Some (cond_Zopp s (Z.shiftl (Zpos m) e))
  | _ => None
  end.

Definition floor (x : float) : option Z :=
  match x with
  | S754_zero _ => Some 0%Z
  | S754_finite s m e => Some (Z.shiftl (cond_Zopp s (Zpos m)) e)
  | _ => None
  end.

End F64.

(** ** Python: exceptions, [int()], indexing, slicing *)

(** Exit codes of brainflow's [BrainFlowExitCodes] that the driver reports
    while streaming (a selection of the library's enumeration). *)
Variant BrainFlowExitCodes :=
  | STATUS_OK
  | BOARD_NOT_READY_ERROR
  | EMPTY_BUFFER_ERROR
  | INVALID_ARGUMENTS_ERROR
  | BOARD_NOT_CREATED_ERROR
  | GENERAL_ERROR.

Definition exit_code_eqb (a b : BrainFlowExitCodes) : bool :=
  match a, b with
  | STATUS_OK, STATUS_OK
  | BOARD_NOT_READY_ERROR, BOARD_NOT_READY_ERROR
  | EMPTY_BUFFER_ERROR, EMPTY_BUFFER_ERROR
  | INVALID_ARGUMENTS_ERROR, INVALID_ARGUMENTS_ERROR
  | BOARD_NOT_CREATED_ERROR, BOARD_NOT_CREATED_ERROR
  | GENERAL_ERROR, GENERAL_ERROR => true
  | _, _ => false
  end.

Variant exn :=
  | BrainFlowError (exit_code : BrainFlowExitCodes)
  | IndexError
  | ValueError
  | OverflowError
  | ZeroDivisionError
  | OtherError (what : string).

Variant result (A : Type) :=
  | Ok (a : A)
  | Raise (e : exn).
Arguments Ok {A} a.
Arguments Raise {A} e.

#[global] Instance result_ret : MRet result := fun A a => Ok a.
#[global] Instance result_bind : MBind result :=
  fun A B f m => match m with Ok a => f a | Raise e => Raise e end.

Module Py.

(** [int(x)] of a float: truncation toward zero; NaN and the infinities
    raise. *)
Definition int (x : float) : result Z :=
  match x with
  | S754_nan => Raise ValueError
  | S754_infinity _ => Raise OverflowError
  | _ => match F64.trunc x with Some z => Ok z | None => Raise ValueError end
  end.

(** [a[i]] for a non-negative index. *)
Definition index {A} (a : list A) (i : nat) : result A :=
  match a !! i with
  | Some x => Ok x
  | None => Raise IndexError
  end.

(** The slice [a[-k:]]: the last [k] entries for a positive [k], everything
    for [k = 0] (as [-0] is [0]), and [a[|k|:]] for a negative [k]. *)
Definition slice_last {A} (k : Z) (a : list A) : list A :=
  if (k =? 0)%Z then a
  else if (0 <? k)%Z then drop (length a - Z.to_nat k) a
  else drop (Z.to_nat (- k)) a.

(** A [for] loop whose body updates the loop variables [acc] and may
    raise. *)
Fixpoint for_loop {A B} (body : A -> B -> result A) (acc : A)
    (items : list B) : result A :=
  match items with
  | [] => Ok acc
  | x :: rest => acc' ← body acc x; for_loop body acc' rest
  end.

(** [del a[0]]. *)
Definition del0 {A} (a : list A) : result (list A) :=
  match a with
  | [] => Raise IndexError
  | _ :: r => Ok r
  end.

End Py.

(** ** numpy reductions and elementwise functions

    Sums accumulate from the first entry in index order. (For long
    one-dimensional inputs numpy adds pairwise, which can change the last
    bits of a sum. The general statements below hold for any order, and the
    sums that are evaluated are exact.) *)

Module Np.

Definition sum (a : list float) : float :=
  match a with
  | [] => F64.zero
  | x :: r => foldl F64.add x r
  end.

Definition mean (a : list float) : float :=
  F64.div (sum a) (F64.of_nat (length a)).

(** [np.var]: the mean of the squared deviations from the mean. *)
Definition var (a : list float) : float :=
  let m := mean a in
  mean (map (fun x => let d := F64.sub x m in F64.mul d d) a).

Definition std (a : list float) : float := F64.sqrt (var a).

(** [np.maximum] and [np.minimum] hand on a NaN of either argument. *)
Definition maximum (a b : float) : float :=
  if F64.leb b a || F64.is_nan a then a else b.

Definition minimum (a b : float) : float :=
  if F64.leb a b || F64.is_nan a then a else b.

Definition clip (x lo hi : float) : float := minimum (maximum x lo) hi.

(** [np.float32(x)]: rounding to binary32 (precision 24, maximal exponent
    128); the result is again read as a binary64 value. *)
Definition float32 (x : float) : float :=
  match x with
  | S754_finite s m e => binary_normalize 24 128 (cond_Zopp s (Zpos m)) e s
  | _ => x
  end.

(** [a[rows]] for a list of row numbers. *)
Definition take_rows (rows : list nat) (a : list (list float))
  : result (list (list float)) :=
  mapM (Py.index a) rows.

(** [np.mean(sel, axis=0)] of the selected rows of a matrix with [ncols]
    columns: the rows are added up one after the other, entry by entry, and
    divided by their number. *)
Definition sum_axis0 (ncols : nat) (sel : list (list float)) : list float :=
  match sel with
  | [] => replicate ncols F64.zero
  | r :: rest => foldl (zip_with F64.add) r rest
  end.

Definition mean_axis0 (ncols : nat) (sel : list (list float)) : list float :=
  map (fun s => F64.div s (F64.of_nat (length sel))) (sum_axis0 ncols sel).

End Np.

(** ** Data model *)

Module Channel.

(** The dataclass [Channel]. Two channels are equal ([==], and so for
    [in]) when all their fields are. *)
Record t := {
  ch_number : nat;
  name : string;
  reference : bool;
  display : bool;
}.

Definition eqb (a b : t) : bool :=
  Nat.eqb (ch_number a) (ch_number b) && String.eqb (name a) (name b)
  && Bool.eqb (reference a) (reference b) && Bool.eqb (display a) (display b).

End Channel.

(** [ch in channels]. *)
Definition channel_in (ch : Channel.t) (channels : list Channel.t) : bool :=
  existsb (Channel.eqb ch) channels.

Variant BrainFlowPresets := DEFAULT_PRESET | AUXILIARY_PRESET | ANCILLARY_PRESET.

(** A window of samples: one row per channel number, oldest sample first. *)
Definition matrix : Type := list (list float).

(** What the static methods of [BoardShim] report about a board. *)
Record BoardInfo := {
  descr_eeg_names : list string;      (* eeg_names, split at the commas *)
  descr_eeg_channels : list nat;
  descr_other_channels : list nat;
  info_gyro_channels : list nat;
  info_ppg_channels : list nat;
  info_sampling_rate : BrainFlowPresets -> Z;
}.

(** The sample source as one tick sees it. *)
Record BoardShim := {
  is_prepared : bool;
  get_current_board_data : Z -> BrainFlowPresets -> result matrix;
}.

(** The routines of brainflow's [DataFilter] that the dashboard calls. Each of
    them may raise a [BrainFlowError]. The filters work in place; here they
    return the filtered row. A power spectral density is the pair of the
    amplitudes and the frequencies. *)
Record DataFilter := {
  detrend : list float -> result (list float);
  perform_bandpass :
    list float -> Z -> float -> float -> Z -> result (list float);
  perform_bandstop :
    list float -> Z -> float -> float -> Z -> result (list float);
  get_psd_welch : list float -> Z -> Z -> Z -> result (list float * list float);
  get_band_power : list float * list float -> float -> float -> result float;
  get_nearest_power_of_two : Z -> Z;
}.

(** The attributes of an [IXRDashboard] that [_update] reads or writes. The
    [inverse_workload] attributes are set once and never used. *)
Record IXRDashboard := {
  reference : string;
  eeg_channels : list Channel.t;
  gyro_channels : list nat;
  ppg_channels : list nat;
  eeg_sampling_rate : Z;
  gyro_sampling_rate : Z;
  ppg_sampling_rate : Z;
  update_speed_ms : Z;
  plot_window_s : Z;
  power_metric_window_s : float;
  psd_size : Z;
  calib_length : Z;
  hist_length : Z;
  brain_scale : float;
  brain_center : float;
  head_impact : float;
  engagement_calib : list float;
  engagement_hist : list float;
  engagement : float;
  power_metrics : float;
}.

(** What one completed tick hands to the sinks: the heights of the band bar
    and the power metric (bar height and LSL sample). *)
Record Published := {
  pub_bands : list Z;
  pub_power : float;
}.

(** ** Construction and configuration *)

(** [a / b] of two Python integers: the correctly rounded quotient. *)
Definition int_truediv (a b : Z) : result float :=
  let raw z := match z with
               | Z0 => S754_zero false
               | Zpos p => S754_finite false p 0
               | Zneg p => S754_finite true p 0
               end in
  if (b =? 0)%Z then Raise ZeroDivisionError
  else Ok (F64.div (raw a) (raw b)).

Definition DEFAULT_CALIB_LENGTH : Z := 600.
Definition DEFAULT_POWER_LENGTH : Z := 10.
Definition DEFAULT_SCALE : float := F64.lit 15 10.
Definition DEFAULT_OFFSET : float := F64.lit 5 10.
Definition DEFAULT_HEAD_IMPACT : float := F64.lit 2 10.

Definition set_parameters (self : IXRDashboard)
    (calib_length power_length : Z) (scale offset head_impact : float)
  : result IXRDashboard :=
  c ← int_truediv (calib_length * 1000) (update_speed_ms self) ≫= Py.int;
  h ← int_truediv (power_length * 1000) (update_speed_ms self) ≫= Py.int;
  mret {|
    reference := reference self;
    eeg_channels := eeg_channels self;
    gyro_channels := gyro_channels self;
    ppg_channels := ppg_channels self;
    eeg_sampling_rate := eeg_sampling_rate self;
    gyro_sampling_rate := gyro_sampling_rate self;
    ppg_sampling_rate := ppg_sampling_rate self;
    update_speed_ms := update_speed_ms self;
    plot_window_s := plot_window_s self;
    power_metric_window_s := power_metric_window_s self;
    psd_size := psd_size self;
    calib_length := c;
    hist_length := h;
    brain_scale := scale;
    brain_center := offset;
    head_impact := head_impact;
    engagement_calib := engagement_calib self;
    engagement_hist := engagement_hist self;
    engagement := engagement self;
    power_metrics := power_metrics self;
  |}.

(** [__init__], with the arguments [reference] and [display_ref]; the
    parameters are set to their defaults and both histories are seeded with
    [[0, 1]]. *)
Definition __init__ (DF : DataFilter) (info : BoardInfo)
    (reference : string) (display_ref : bool) : result IXRDashboard :=
  signal_channels ←
    mapM (fun '(i, ch_number) =>
            name ← Py.index (descr_eeg_names info) i;
            mret (Channel.Build_t ch_number name false true))
         (imap pair (descr_eeg_channels info));
  let reference_channels :=
    map (fun ch_number => Channel.Build_t ch_number "Fpz" true display_ref)
        (descr_other_channels info) in
  let eeg_rate := info_sampling_rate info DEFAULT_PRESET in
  set_parameters {|
    reference := reference;
    eeg_channels := signal_channels ++ reference_channels;
    gyro_channels := info_gyro_channels info;
    ppg_channels := info_ppg_channels info;
    eeg_sampling_rate := eeg_rate;
    gyro_sampling_rate := info_sampling_rate info AUXILIARY_PRESET;
    ppg_sampling_rate := info_sampling_rate info ANCILLARY_PRESET;
    update_speed_ms := 100;
    plot_window_s := 20;
    power_metric_window_s := F64.lit 15 10;
    psd_size := get_nearest_power_of_two DF eeg_rate;
    calib_length := 0;
    hist_length := 0;
    brain_scale := F64.zero;
    brain_center := F64.zero;
    head_impact := F64.zero;
    engagement_calib := [F64.zero; F64.one];
    engagement_hist := [F64.zero; F64.one];
    engagement := F64.zero;
    power_metrics := F64.zero;
  |} DEFAULT_CALIB_LENGTH DEFAULT_POWER_LENGTH
     DEFAULT_SCALE DEFAULT_OFFSET DEFAULT_HEAD_IMPACT.

(** ** The tick: [_update]

    The tick first derives its measurements from the pulled windows without
    touching any attribute ([measure], the source's lines up to the raw
    engagement index) and then runs the calibration and smoothing steps on
    the histories and publishes ([engage]). *)

Section Update.

Variable DF : DataFilter.
Variable self : IXRDashboard.

(** [int(self.power_metric_window_s * rate)] *)
Definition metric_window (rate : Z) : result Z :=
  Py.int (F64.mul (power_metric_window_s self) (F64.of_Z rate)).

(** The body of the [try] statement: the three windows. *)
Definition pull_windows (board : BoardShim)
  : result (matrix * matrix * list float) :=
  eeg_data ← get_current_board_data board
               (plot_window_s self * eeg_sampling_rate self) DEFAULT_PRESET;
  gyro_raw ← get_current_board_data board
               (plot_window_s self * gyro_sampling_rate self) AUXILIARY_PRESET;
  gyro_data ← Np.take_rows (gyro_channels self) gyro_raw;
  ppg_raw ← get_current_board_data board
              (plot_window_s self * ppg_sampling_rate self) ANCILLARY_PRESET;
  ppg_channel ← Py.index (ppg_channels self) 0;
  ppg_data ← Py.index ppg_raw ppg_channel;
  mret (eeg_data, gyro_data, ppg_data).

(** Bad channel detection: the variance of the trailing window of each
    non-reference channel, over 500000, against the threshold 0.04. (The
    line power ratio computed next to it is not used.) *)
Definition bad_channel_step (eeg_data : matrix)
    (bad_channels : list Channel.t) (eeg_channel : Channel.t)
  : result (list Channel.t) :=
  if Channel.reference eeg_channel then mret bad_channels
  else
    row ← Py.index eeg_data (Channel.ch_number eeg_channel);
    k ← metric_window (eeg_sampling_rate self);
    let channel_data := Py.slice_last k row in
    let threshold := F64.lit 4 100 in
    let variance := F64.div (Np.var channel_data) (F64.of_Z 500000) in
    if F64.ltb threshold variance
    then mret (bad_channels ++ [eeg_channel])
    else mret bad_channels.

Definition detect_bad_channels (eeg_data : matrix) : result (list Channel.t) :=
  Py.for_loop (bad_channel_step eeg_data) [] (eeg_channels self).

(** Re-referencing. [a[rows] -= v] computes [a[rows] - v] from the matrix
    as it is and then stores the new rows. *)
Definition channel_numbers (is_reference : bool) : list nat :=
  map Channel.ch_number
      (filter (fun ch => Channel.reference ch = is_reference)
              (eeg_channels self)).

Definition store_row (acc : matrix) (entry : nat * list float) : matrix :=
  let '(i, row) := entry in <[i := row]> acc.

Definition subtract_from_rows (rows : list nat) (v : list float)
    (a : matrix) : result matrix :=
  sel ← Np.take_rows rows a;
  let new_rows := map (fun row => zip_with F64.sub row v) sel in
  mret (foldl store_row a (zip rows new_rows)).

Definition ncols (a : matrix) : nat :=
  match a with
  | [] => 0
  | row :: _ => length row
  end.

Definition rereference (eeg_data : matrix) : result matrix :=
  if String.eqb (reference self) "mean" then
    sel ← Np.take_rows (channel_numbers false) eeg_data;
    let mean_channels := Np.mean_axis0 (ncols eeg_data) sel in
    subtract_from_rows (channel_numbers false) mean_channels eeg_data
  else if String.eqb (reference self) "ref" then
    sel ← Np.take_rows (channel_numbers true) eeg_data;
    let mean_reference_channels := Np.mean_axis0 (ncols eeg_data) sel in
    subtract_from_rows (channel_numbers false) mean_reference_channels eeg_data
  else mret eeg_data.

(** Head movement. [gyro_data[:][-k:]] slices the first axis of the
    two-dimensional window. *)
Definition head_movement_of (gyro_data : matrix) : result float :=
  k ← metric_window (gyro_sampling_rate self);
  let window := Py.slice_last k gyro_data in
  mret (Np.clip (F64.div (Np.mean (concat (map (map F64.abs) window)))
                         (F64.of_Z 50))
                F64.zero F64.one).

(** What a good channel adds to the engagement index. *)
Definition engagement_term (beta theta alpha gamma : float) : float :=
  F64.div (F64.div beta (F64.add theta alpha)) gamma.

(** The pens of the curves of the channels that are not bad. *)
Definition colors : list string :=
  ["#e9c46a"; "#f4a261"; "#e76f51"; "#d62828"].

(** One round of the loop over the displayed channels, numbered from 0. The
    loop carries the window (filtered in place), the band sums and the
    engagement sum. The accumulators [frontal_theta] and [parietal_alpha]
    are never read. *)
Definition eeg_step (bad_channels : list Channel.t)
    (acc : matrix * list float * float) (entry : nat * Channel.t)
  : result (matrix * list float * float) :=
  let '(eeg_data, avg_bands, engagement_idx) := acc in
  let '(graph_number, eeg_channel) := entry in
  let n := Channel.ch_number eeg_channel in
  let rate := eeg_sampling_rate self in
  row ← Py.index eeg_data n;
  row ← detrend DF row;
  row ← perform_bandpass DF row rate (F64.of_Z 1) (F64.of_Z 59) 2;
  row ← perform_bandstop DF row rate (F64.of_Z 48) (F64.of_Z 52) 2;
  let eeg_data := <[n := row]> eeg_data in
  pen ← (if channel_in eeg_channel bad_channels then mret "w"
         else Py.index colors graph_number);
  k ← metric_window rate;
  let eeg_data_pm_sliced := Py.slice_last k row in
  if (Z.of_nat (length eeg_data_pm_sliced) <? psd_size self)%Z
  then mret (eeg_data, avg_bands, engagement_idx)
  else if negb (Channel.reference eeg_channel) then
    psd_data ← get_psd_welch DF eeg_data_pm_sliced (psd_size self)
                 (psd_size self / 2) rate;
    delta ← get_band_power DF psd_data (F64.of_Z 1) (F64.of_Z 4);
    theta ← get_band_power DF psd_data (F64.of_Z 4) (F64.of_Z 8);
    alpha ← get_band_power DF psd_data (F64.of_Z 8) (F64.of_Z 13);
    beta ← get_band_power DF psd_data (F64.of_Z 13) (F64.of_Z 30);
    gamma ← get_band_power DF psd_data (F64.of_Z 30) (F64.of_Z 60);
    let avg_bands := zip_with F64.add avg_bands [delta; theta; alpha; beta; gamma] in
    if channel_in eeg_channel bad_channels
    then mret (eeg_data, avg_bands, engagement_idx)
    else mret (eeg_data, avg_bands,
               F64.add engagement_idx (engagement_term beta theta alpha gamma))
  else mret (eeg_data, avg_bands, engagement_idx).

Definition eeg_processing (bad_channels : list Channel.t) (eeg_data : matrix)
  : result (matrix * list float * float) :=
  Py.for_loop (eeg_step bad_channels)
    (eeg_data, replicate 5 F64.zero, F64.zero)
    (imap pair (filter (fun ch => Channel.display ch = true)
                       (eeg_channels self))).

(** [int(x / len(self.eeg_channels))]. Without channels the sums are still
    the integers they started as, and the division raises. *)
Definition band_average (x : float) : result Z :=
  if Nat.eqb (length (eeg_channels self)) 0 then Raise ZeroDivisionError
  else Py.int (F64.div x (F64.of_nat (length (eeg_channels self)))).

(** The raw engagement index of the tick. *)
Definition raw_engagement (bad_channels : list Channel.t)
    (engagement_idx : float) : float :=
  if negb (Nat.eqb (length bad_channels) 4)
  then F64.div engagement_idx (F64.of_Z (4 - Z.of_nat (length bad_channels)))
  else F64.zero.

(** The PPG window is detrended and band-passed for its curve. *)
Definition ppg_filter (ppg_data : list float) : result (list float) :=
  ppg_data ← detrend DF ppg_data;
  perform_bandpass DF ppg_data (ppg_sampling_rate self)
    (F64.lit 8 10) (F64.of_Z 4) 4.

(** Everything up to the raw engagement index: [None] when the tick is
    given up, else the raw engagement index, the head movement and the band
    averages. No attribute is written here. *)
Definition measure (board : BoardShim) : result (option (float * float * list Z)) :=
  if negb (is_prepared board) then mret None
  else
    match pull_windows board with
    | Raise (BrainFlowError code) =>
        if exit_code_eqb code INVALID_ARGUMENTS_ERROR then mret None
        else Raise (BrainFlowError code)
    | Raise e => Raise e
    | Ok (eeg_data, gyro_data, ppg_data) =>
        if (length eeg_data <? 1) || (length gyro_data <? 1)
           || (length ppg_data <? 1)
        then mret None
        else
          bad_channels ← detect_bad_channels eeg_data;
          eeg_data ← rereference eeg_data;
          head_movement ← head_movement_of gyro_data;
          _ ← ppg_filter ppg_data;
          '(_, avg_bands, engagement_idx) ← eeg_processing bad_channels eeg_data;
          avg_bands ← mapM band_average avg_bands;
          mret (Some (raw_engagement bad_channels engagement_idx,
                      head_movement, avg_bands))
    end.

(** Replacement of the four attributes a tick writes. *)
Definition with_engagement (calib hist : list float) (e p : float)
  : IXRDashboard :=
  {| reference := reference self;
     eeg_channels := eeg_channels self;
     gyro_channels := gyro_channels self;
     ppg_channels := ppg_channels self;
     eeg_sampling_rate := eeg_sampling_rate self;
     gyro_sampling_rate := gyro_sampling_rate self;
     ppg_sampling_rate := ppg_sampling_rate self;
     update_speed_ms := update_speed_ms self;
     plot_window_s := plot_window_s self;
     power_metric_window_s := power_metric_window_s self;
     psd_size := psd_size self;
     calib_length := calib_length self;
     hist_length := hist_length self;
     brain_scale := brain_scale self;
     brain_center := brain_center self;
     head_impact := head_impact self;
     engagement_calib := calib;
     engagement_hist := hist;
     engagement := e;
     power_metrics := p |}.

(** The calibration history after the append and the eviction. The list is
    not empty when its first entry is deleted. *)
Definition calib_after (engagement_idx : float) : list float :=
  let calib := engagement_calib self ++ [engagement_idx] in
  if (calib_length self <? Z.of_nat (length calib))%Z then drop 1 calib
  else calib.

(** The normalized engagement value: z-score against the calibration
    history, scaled, shifted and clipped. *)
Definition engagement_z_of (calib : list float) (engagement_idx : float)
  : float :=
  let engagement_z := F64.div (F64.sub engagement_idx (Np.mean calib))
                              (Np.std calib) in
  let engagement_z := F64.div engagement_z
                        (F64.mul (F64.of_Z 2) (brain_scale self)) in
  let engagement_z := F64.add engagement_z (brain_center self) in
  Np.clip engagement_z (F64.lit 5 100) F64.one.

End Update.

(** The loop of the weighted mean: the sum of [hist_val * count], the sum of
    the counts, and the count of the next entry. *)
Definition weighted_step (acc : float * nat * nat) (hist_val : float)
  : float * nat * nat :=
  let '(engagement_weighted_mean, sumweight, count) := acc in
  (F64.add engagement_weighted_mean (F64.mul hist_val (F64.of_nat count)),
   sumweight + count, S count).

Definition weighted_sums (hist : list float) : float * nat :=
  fst (foldl weighted_step (F64.zero, 0, 0) hist).

Definition weighted_mean (hist : list float) : float :=
  let '(engagement_weighted_mean, sumweight) := weighted_sums hist in
  F64.div engagement_weighted_mean (F64.of_nat sumweight).

(** How a tick ends: it returns, with or without a publication, or it raises;
    either way the dashboard is left in some state. *)
Variant outcome :=
  | Done (self' : IXRDashboard) (out : option Published)
  | Raised (e : exn) (self' : IXRDashboard).

Definition state_of (o : outcome) : IXRDashboard :=
  match o with Done s _ | Raised _ s => s end.

Definition published_of (o : outcome) : option Published :=
  match o with Done _ out => out | Raised _ _ => None end.

(** The second half of the tick, from the append to the calibration history
    to the publication. *)
Definition engage (self : IXRDashboard)
    (engagement_idx head_movement : float) (avg_bands : list Z) : outcome :=
  let calib := calib_after self engagement_idx in
  let finish hist :=
    let engagement_z := engagement_z_of self calib engagement_idx in
    let hist := hist ++ [engagement_z] in
    let engagement := weighted_mean hist in
    let power_metrics :=
      Np.float32 (F64.add engagement
                    (F64.mul (F64.sub F64.one head_movement) (head_impact self))) in
    Done (with_engagement self calib hist engagement power_metrics)
         (Some {| pub_bands := avg_bands; pub_power := power_metrics |}) in
  if (hist_length self <? Z.of_nat (length (engagement_hist self)))%Z then
    match Py.del0 (engagement_hist self) with
    | Ok hist => finish hist
    | Raise e =>
        Raised e (with_engagement self calib (engagement_hist self)
                    (engagement self) (power_metrics self))
    end
  else finish (engagement_hist self).

Definition _update (DF : DataFilter) (self : IXRDashboard) (board : BoardShim)
  : outcome :=
  match measure DF self board with
  | Raise e => Raised e self
  | Ok None => Done self None
  | Ok (Some (engagement_idx, head_movement, avg_bands)) =>
      engage self engagement_idx head_movement avg_bands
  end.

(** Ticks one after the other, each with what the source offers then; a tick
    that raises ends the run. *)
Fixpoint run (DF : DataFilter) (self : IXRDashboard) (boards : list BoardShim)
  : outcome :=
  match boards with
  | [] => Done self None
  | board :: rest =>
      match _update DF self board with
      | Done self' out =>
          match rest with
          | [] => Done self' out
          | _ => run DF self' rest
          end
      | Raised e self' => Raised e self'
      end
  end.

(** ** Definitions used to state the properties *)

(** The smoothing history after the eviction step, before the append. *)
Definition hist_evicted (self : IXRDashboard) : list float :=
  if (hist_length self <? Z.of_nat (length (engagement_hist self)))%Z
  then drop 1 (engagement_hist self)
  else engagement_hist self.

(** The sum of the weights [0 + 1 + ... + (n - 1)] of a history of [n]
    entries, and the weighted sum of its entries, oldest first. *)
Definition weight_total (n : nat) : nat := sum_list (seq 0 n).

Definition weighted_total (hist : list float) : float :=
  foldl F64.add F64.zero
        (imap (fun i hist_val => F64.mul hist_val (F64.of_nat i)) hist).

(** The head movement as the specification words it: the mean absolute value
    of the motion samples of the trailing power-metric window (the last
    samples of every motion channel), over 50, clipped to [0, 1]. *)
Definition head_movement_trailing (self : IXRDashboard) (gyro_data : matrix)
  : result float :=
  k ← metric_window self (gyro_sampling_rate self);
  let window := map (Py.slice_last k) gyro_data in
  mret (Np.clip (F64.div (Np.mean (concat (map (map F64.abs) window)))
                         (F64.of_Z 50))
                F64.zero F64.one).

(** The steps of the first half of a tick that gets as far as its
    measurements: the windows pulled, the bad channels, the band sums and the
    engagement sum of the loop, the head movement and the band averages. *)
Definition tick_phases (DF : DataFilter) (self : IXRDashboard)
    (board : BoardShim) (bad_channels : list Channel.t) (sums : list float)
    (engagement_sum head_movement : float) (bands : list Z) : Prop :=
  exists eeg_data gyro_data ppg_data referenced filtered,
    is_prepared board = true
    /\ pull_windows self board = Ok (eeg_data, gyro_data, ppg_data)
    /\ detect_bad_channels self eeg_data = Ok bad_channels
    /\ rereference self eeg_data = Ok referenced
    /\ head_movement_of self gyro_data = Ok head_movement
    /\ (exists ppg_shown, ppg_filter DF self ppg_data = Ok ppg_shown)
    /\ eeg_processing DF self bad_channels referenced
        = Ok (filtered, sums, engagement_sum)
    /\ mapM (band_average self) sums = Ok bands.

(** ** Fixtures: a four-channel headband and its windows *)

(** A headband with four EEG channels and one reference channel (the layout
    that the hard-wired 4 of the engagement index assumes), sampled at 256 Hz
    (EEG), 52 Hz (motion) and 64 Hz (PPG). *)
Definition headband_info : BoardInfo := {|
  descr_eeg_names := ["TP9"; "Fp1"; "Fp2"; "TP10"];
  descr_eeg_channels := [1; 2; 3; 4];
  descr_other_channels := [5];
  info_gyro_channels := [1; 2; 3];
  info_ppg_channels := [1; 2; 3];
  info_sampling_rate := fun preset =>
    match preset with
    | DEFAULT_PRESET => 256%Z
    | AUXILIARY_PRESET => 52%Z
    | ANCILLARY_PRESET => 64%Z
    end;
|}.

(** A stand-in for brainflow whose filters leave the row as it is and whose
    band powers are given by [power]. Like brainflow, the filters turn down
    a row without samples. *)
Definition flat_filter (power : float -> float -> float) (nfft : Z)
  : DataFilter :=
  let checked (row : list float) : result (list float) :=
    match row with
    | [] => Raise (BrainFlowError INVALID_ARGUMENTS_ERROR)
    | _ => Ok row
    end in
  {| detrend := checked;
     perform_bandpass := fun row _ _ _ _ => checked row;
     perform_bandstop := fun row _ _ _ _ => checked row;
     get_psd_welch := fun _ _ _ _ => Ok ([], []);
     get_band_power := fun _ lo hi => Ok (power lo hi);
     get_nearest_power_of_two := fun _ => nfft |}.

Definition headband_filter : DataFilter := flat_filter (fun _ _ => F64.zero) 256.

(** A prepared source that holds [samples] for every row of every preset. *)
Definition steady_board (samples : list float) : BoardShim := {|
  is_prepared := true;
  get_current_board_data := fun _ preset =>
    Ok (match preset with
        | DEFAULT_PRESET => replicate 6 samples
        | _ => replicate 4 samples
        end);
|}.

(** Right after the start the source holds only a few samples. *)
Definition startup_board : BoardShim := steady_board [F64.zero; F64.zero].

(** The dashboard as constructed, and as constructed and then configured
    with a calibration length of one second. *)
Definition fresh_dashboard : result IXRDashboard :=
  __init__ headband_filter headband_info "mean" false.

Definition short_calibration : result IXRDashboard :=
  self ← fresh_dashboard;
  set_parameters self 1 10 DEFAULT_SCALE DEFAULT_OFFSET DEFAULT_HEAD_IMPACT.

(** The dashboard that [__init__] builds for the headband, as
    [fresh_dashboard_eq] below checks. *)
Definition headband_dashboard : IXRDashboard := {|
  reference := "mean";
  eeg_channels :=
    [Channel.Build_t 1 "TP9" false true; Channel.Build_t 2 "Fp1" false true;
     Channel.Build_t 3 "Fp2" false true; Channel.Build_t 4 "TP10" false true;
     Channel.Build_t 5 "Fpz" true false];
  gyro_channels := [1; 2; 3];
  ppg_channels := [1; 2; 3];
  eeg_sampling_rate := 256;
  gyro_sampling_rate := 52;
  ppg_sampling_rate := 64;
  update_speed_ms := 100;
  plot_window_s := 20;
  power_metric_window_s := F64.lit 15 10;
  psd_size := 256;
  calib_length := 6000;
  hist_length := 100;
  brain_scale := DEFAULT_SCALE;
  brain_center := DEFAULT_OFFSET;
  head_impact := DEFAULT_HEAD_IMPACT;
  engagement_calib := [F64.zero; F64.one];
  engagement_hist := [F64.zero; F64.one];
  engagement := F64.zero;
  power_metrics := F64.zero;
|}.

(** The same with a calibration length of one second, and that after nine
    ticks on start-up windows. *)
Definition short_dashboard : IXRDashboard :=
  match short_calibration with
  | Ok self => self
  | Raise _ => headband_dashboard
  end.

Definition zeros_dashboard : IXRDashboard :=
  state_of (run headband_filter short_dashboard (replicate 9 startup_board)).

(** A source with a full power-metric window of constant samples and band
    powers of 10.5 for every band. *)
Definition full_board : BoardShim := steady_board (replicate 384 F64.one).

Definition even_filter : DataFilter :=
  flat_filter (fun _ _ => F64.lit 21 2) 256.

(** An EEG window of two samples, before and after re-referencing to the
    mean of the channels 1 to 4. *)
Definition two_samples : matrix :=
  [[F64.zero; F64.zero]; [F64.of_Z 1; F64.of_Z 2]; [F64.of_Z 3; F64.of_Z 4];
   [F64.of_Z 5; F64.of_Z 6]; [F64.of_Z 7; F64.of_Z 8]; [F64.of_Z 9; F64.of_Z 9]].

Definition two_samples_referenced : matrix :=
  [[F64.zero; F64.zero]; [F64.of_Z (-3); F64.of_Z (-3)];
   [F64.of_Z (-1); F64.of_Z (-1)]; [F64.of_Z 1; F64.of_Z 1];
   [F64.of_Z 3; F64.of_Z 3]; [F64.of_Z 9; F64.of_Z 9]].

(** Three motion channels of eighty samples: a jolt in the first two samples,
    then rest for the 78 samples of the power-metric window. *)
Definition jolt_then_rest : matrix :=
  replicate 3 (replicate 2 (F64.of_Z 200) ++ replicate 78 F64.zero).

(** The EEG window holds its six rows but no sample yet, while the motion
    and PPG windows have two samples. *)
Definition eeg_drained_board : BoardShim := {|
  is_prepared := true;
  get_current_board_data := fun _ preset =>
    Ok (match preset with
        | DEFAULT_PRESET => replicate 6 []
        | _ => replicate 4 [F64.zero; F64.zero]
        end);
|}.

(** A stand-in for brainflow that takes any row, also one without samples. *)
Definition lenient_filter : DataFilter := {|
  detrend := fun row => Ok row;
  perform_bandpass := fun row _ _ _ _ => Ok row;
  perform_bandstop := fun row _ _ _ _ => Ok row;
  get_psd_welch := fun _ _ _ _ => Ok ([], []);
  get_band_power := fun _ _ _ => Ok F64.zero;
  get_nearest_power_of_two := fun _ => 256%Z;
|}.

(** The invariant of the band sums in the loop over the channels: five
    sums, none of them negative. *)
Definition band_sums_ok (acc : matrix * list float * float) : Prop :=
  length acc.1.2 = 5 /\ Forall (fun s => F64.nonneg s = true) acc.1.2.

(** ** The plots of the window

    The list of curves that [_init_timeseries] builds and the list of
    spectrum curves of [_init_psd]: of a plot its row in the grid, its title,
    its y range and the pen of its curve. *)

(** [_init_pens]: one pen and one brush per colour. *)
Definition _init_pens : list string * list string :=
  let colors := ["#e9c46a"; "#f4a261"; "#e76f51"; "#d62828"; "#2a9d8f";
                 "#168aad"; "#e9f5db"; "#A57E2F"; "#A53B2F"] in
  (colors, colors).

(** A plot of the time series column with its curve: the row of the grid it
    is added to, its title, its fixed y range and the pen of its curve. *)
Record Plot := {
  plot_row : nat;
  plot_title : string;
  plot_y_range : Z * Z;
  plot_pen : string;
}.

(** [a[i % len(a)]] *)
Definition index_mod {A} (a : list A) (i : nat) : result A :=
  if Nat.eqb (length a) 0 then Raise ZeroDivisionError
  else Py.index a (i mod length a).

(** [_init_timeseries]: the curves, in the order of [self.curves]. *)
Definition _init_timeseries (self : IXRDashboard) (pens : list string)
  : result (list Plot) :=
  let display_eeg_channels :=
    map Channel.name
        (filter (fun ch => Channel.display ch = true) (eeg_channels self)) in
  eeg ← mapM (fun '(i, channel_name) =>
                pen ← index_mod pens i;
                mret {| plot_row := i; plot_title := channel_name;
                        plot_y_range := (-150, 150)%Z; plot_pen := pen |})
             (imap pair display_eeg_channels);
  let axeslabels_gyro := ["gyro 1"; "gyro 2"; "gyro 3"] in
  gyro ← mapM (fun i =>
                 title ← Py.index axeslabels_gyro i;
                 pen ← index_mod pens i;
                 mret {| plot_row := i + length display_eeg_channels;
                         plot_title := title;
                         plot_y_range := (-250, 250)%Z; plot_pen := pen |})
              (seq 0 (length (gyro_channels self)));
  pen ← Py.index pens 3;
  mret (eeg ++ gyro
        ++ [{| plot_row := 1 + length display_eeg_channels
                           + length (gyro_channels self);
               plot_title := "heart";
               plot_y_range := (-1500, 2000)%Z; plot_pen := pen |}]).

(** [_init_psd]: the pen of one spectrum curve per EEG channel. *)
Definition _init_psd (self : IXRDashboard) (pens : list string)
  : result (list string) :=
  mapM (fun i => index_mod pens i) (seq 0 (length (eeg_channels self))).

(** ** Further definitions used to state the properties *)

(** The displayed channels, which the curves of the time series and the
    loop of the tick go through. *)
Definition displayed (self : IXRDashboard) : list Channel.t :=
  filter (fun ch => Channel.display ch = true) (eeg_channels self).

(** The pen [self.pens[i % len(self.pens)]] of the nine pens. *)
Definition pen_of (i : nat) : string :=
  default "" (_init_pens.1 !! (i mod 9)).

(** The plots that [_init_timeseries] adds: of the displayed channel
    [entry], of the [i]-th motion channel below [nd] displayed channels, and
    of the heart rate below these and [ng] motion channels. *)
Definition eeg_plot (entry : nat * string) : Plot :=
  {| plot_row := entry.1; plot_title := entry.2;
     plot_y_range := (-150, 150)%Z; plot_pen := pen_of entry.1 |}.

Definition gyro_plot (nd i : nat) : Plot :=
  {| plot_row := i + nd;
     plot_title := default "" (["gyro 1"; "gyro 2"; "gyro 3"] !! i);
     plot_y_range := (-250, 250)%Z; plot_pen := pen_of i |}.

Definition heart_plot (nd ng : nat) : Plot :=
  {| plot_row := 1 + nd + ng; plot_title := "heart";
     plot_y_range := (-1500, 2000)%Z; plot_pen := "#d62828" |}.

(** The channel that [__init__] builds of the [entry.1]-th EEG channel
    number [entry.2]. *)
Definition signal_channel (names : list string) (entry : nat * nat)
  : Channel.t :=
  Channel.Build_t entry.2 (default "" (names !! entry.1)) false true.

(** Whether [int(seconds * 1000 / 100)] is ten times [seconds]. *)
Definition capacity_exact (seconds : Z) : bool :=
  match int_truediv (seconds * 1000) 100 ≫= Py.int with
  | Ok n => (n =? 10 * seconds)%Z
  | Raise _ => false
  end.

(** Filters that return as many samples as they are given, as brainflow's
    do, which filter in place. *)
Definition keeps_length (DF : DataFilter) : Prop :=
  (forall row r, detrend DF row = Ok r -> length r = length row)
  /\ (forall row rate lo hi order r,
        perform_bandpass DF row rate lo hi order = Ok r -> length r = length row)
  /\ (forall row rate lo hi order r,
        perform_bandstop DF row rate lo hi order = Ok r -> length r = length row).

(** Every row of the window has fewer than [psd_size] samples. *)
Definition short_rows (self : IXRDashboard) (a : matrix) : Prop :=
  Forall (fun row => (Z.of_nat (length row) < psd_size self)%Z) a.

(** ** Further fixtures *)

(** An EEG window of two samples in which channel 2 swings by 200. *)
Definition noisy_window : matrix :=
  [[F64.zero; F64.zero]; [F64.of_Z 1; F64.of_Z 2];
   [F64.of_Z (-200); F64.of_Z 200]; [F64.of_Z 5; F64.of_Z 6];
   [F64.of_Z 7; F64.of_Z 8]; [F64.of_Z 9; F64.of_Z 9]].

(** The headband's dashboard with the reference channel displayed. *)
Definition shown_reference_dashboard : IXRDashboard :=
  match __init__ headband_filter headband_info "mean" true with
  | Ok self => self
  | Raise _ => headband_dashboard
  end.

(** A board without a reference channel, and its dashboard in mode [ref]. *)
Definition bare_info : BoardInfo := {|
  descr_eeg_names := ["TP9"; "Fp1"; "Fp2"; "TP10"];
  descr_eeg_channels := [1; 2; 3; 4];
  descr_other_channels := [];
  info_gyro_channels := [1; 2; 3];
  info_ppg_channels := [1; 2; 3];
  info_sampling_rate := info_sampling_rate headband_info;
|}.

Definition bare_dashboard : IXRDashboard :=
  match __init__ headband_filter bare_info "ref" false with
  | Ok self => self
  | Raise _ => headband_dashboard
  end.

(** The headband without motion channels. *)
Definition still_info : BoardInfo := {|
  descr_eeg_names := ["TP9"; "Fp1"; "Fp2"; "TP10"];
  descr_eeg_channels := [1; 2; 3; 4];
  descr_other_channels := [5];
  info_gyro_channels := [];
  info_ppg_channels := [1; 2; 3];
  info_sampling_rate := info_sampling_rate headband_info;
|}.

Definition still_dashboard : IXRDashboard :=
  match __init__ headband_filter still_info "mean" false with
  | Ok self => self
  | Raise _ => headband_dashboard
  end.

(** A source whose motion window has only the rows 0 and 1. *)
Definition narrow_board : BoardShim := {|
  is_prepared := true;
  get_current_board_data := fun _ preset =>
    Ok (match preset with
        | DEFAULT_PRESET => replicate 6 [F64.zero; F64.zero]
        | AUXILIARY_PRESET => replicate 2 [F64.zero; F64.zero]
        | ANCILLARY_PRESET => replicate 4 [F64.zero; F64.zero]
        end);
|}.

(** A source with full EEG and PPG windows whose motion window holds its
    rows but no sample yet. *)
Definition motion_drained_board : BoardShim := {|
  is_prepared := true;
  get_current_board_data := fun _ preset =>
    Ok (match preset with
        | DEFAULT_PRESET => replicate 6 (replicate 384 F64.one)
        | AUXILIARY_PRESET => replicate 4 []
        | ANCILLARY_PRESET => replicate 4 (replicate 384 F64.one)
        end);
|}.

(** The headband's dashboard after both lengths were set to zero. *)
Definition lowered_dashboard : IXRDashboard :=
  match set_parameters headband_dashboard 0 0 DEFAULT_SCALE DEFAULT_OFFSET
          DEFAULT_HEAD_IMPACT with
  | Ok self => self
  | Raise _ => headband_dashboard
  end.

(** ** States a dashboard can be in *)

Inductive reachable (DF : DataFilter) : IXRDashboard -> Prop :=
  | reachable_init info reference display_ref self :
      __init__ DF info reference display_ref = Ok self ->
      reachable DF self
  | reachable_set_parameters self c p scale offset impact self' :
      reachable DF self ->
      set_parameters self c p scale offset impact = Ok self' ->
      reachable DF self'
  | reachable_update self board :
      reachable DF self ->
      reachable DF (state_of (_update DF self board)).

(** Arithmetic on concrete values is left to [vm_compute]. *)
Arguments F64.add : simpl never.
Arguments F64.sub : simpl never.
Arguments F64.mul : simpl never.
Arguments F64.div : simpl never.
Arguments F64.sqrt : simpl never.
Arguments F64.of_Z : simpl never.
Arguments F64.of_nat : simpl never.
Arguments F64.lit : simpl never.
Arguments F64.one : simpl never.
Arguments Np.sum : simpl never.
Arguments Np.mean : simpl never.
Arguments Np.var : simpl never.
Arguments Np.std : simpl never.
Arguments Np.clip : simpl never.
Arguments Np.float32 : simpl never.
Arguments Py.int : simpl never.
Arguments int_truediv : simpl never.

(** ** Facts about binary64 operations *)

Lemma add_nan_r x : F64.add x F64.nan = F64.nan.
Proof. by destruct x. Qed.

Lemma mul_nan_l y : F64.mul F64.nan y = F64.nan.
Proof. done. Qed.

Lemma div_nan_l y : F64.div F64.nan y = F64.nan.
Proof. done. Qed.

Lemma div_by_zero_not_finite x y :
  F64.is_zero y = true -> F64.is_finite (F64.div x y) = false.
Proof. by destruct x, y. Qed.

Lemma div_zero_zero x y :
  F64.is_zero x = true -> F64.is_zero y = true -> F64.div x y = F64.nan.
Proof. by destruct x, y. Qed.

Lemma add_not_finite_r x y :
  F64.is_finite y = false -> F64.is_finite (F64.add x y) = false.
Proof. destruct x as [| [] | |], y as [| [] | |]; done. Qed.

Lemma add_not_finite_l x y :
  F64.is_finite x = false -> F64.is_finite (F64.add x y) = false.
Proof. destruct x as [| [] | |], y as [| [] | |]; done. Qed.

Lemma sub_not_finite_l x y :
  F64.is_finite x = false -> F64.is_finite (F64.sub x y) = false.
Proof. destruct x as [| [] | |], y as [| [] | |]; done. Qed.

Lemma sub_not_finite_r x y :
  F64.is_finite y = false -> F64.is_finite (F64.sub x y) = false.
Proof. destruct x as [| [] | |], y as [| [] | |]; done. Qed.

Lemma div_not_finite_l x y :
  F64.is_finite x = false -> F64.is_finite (F64.div x y) = false.
Proof. destruct x as [| [] | |], y as [| [] | |]; done. Qed.

Lemma div_not_finite_both x y :
  F64.is_finite x = false -> F64.is_finite y = false -> F64.div x y = F64.nan.
Proof. destruct x as [| [] | |], y as [| [] | |]; done. Qed.

Lemma mul_self_not_finite x :
  F64.is_finite x = false -> F64.is_finite (F64.mul x x) = false.
Proof. destruct x as [| [] | |]; done. Qed.

Lemma sqrt_not_finite x :
  F64.is_finite x = false -> F64.is_finite (F64.sqrt x) = false.
Proof. destruct x as [| [] | |]; done. Qed.

Lemma float32_nan : Np.float32 F64.nan = F64.nan.
Proof. done. Qed.

Lemma clip_nan lo hi : Np.clip F64.nan lo hi = F64.nan.
Proof. unfold Np.clip, Np.maximum, Np.minimum. by destruct lo, hi. Qed.

Ltac cmp_cases :=
  repeat match goal with
  | |- context [Z.compare ?a ?b] => destruct (Z.compare_spec a b); simpl
  | H : context [Z.compare ?a ?b] |- _ => destruct (Z.compare_spec a b); simpl in H
  | |- context [Pos.compare_cont Eq ?a ?b] =>
      change (Pos.compare_cont Eq a b) with (Pos.compare a b);
      destruct (Pos.compare_spec a b); simpl
  | H : context [Pos.compare_cont Eq ?a ?b] |- _ =>
      change (Pos.compare_cont Eq a b) with (Pos.compare a b) in H;
      destruct (Pos.compare_spec a b); simpl in H
  end.

Lemma ltb_not_leb x y : F64.ltb x y = true -> F64.leb y x = false.
Proof.
  unfold F64.ltb, F64.leb, SFltb, SFleb.
  destruct x as [[]|[]| |[] mx ex], y as [[]|[]| |[] my ey]; simpl; try done;
    cmp_cases; try done; try lia.
Qed.

Lemma leb_ltb_trans x y z :
  F64.leb x y = true -> F64.ltb y z = true -> F64.leb x z = true.
Proof.
  unfold F64.ltb, F64.leb, SFltb, SFleb.
  destruct x as [[]|[]| |[] mx ex], y as [[]|[]| |[] my ey],
    z as [[]|[]| |[] mz ez]; simpl; try done;
    cmp_cases; try done; try lia.
Qed.

Lemma ltb_not_nan x y : F64.ltb x y = true -> F64.is_nan x = false /\ F64.is_nan y = false.
Proof. by destruct x, y. Qed.

Lemma clip_below x :
  F64.ltb x (F64.lit 5 100) = true ->
  Np.clip x (F64.lit 5 100) F64.one = F64.lit 5 100.
Proof.
  intros H. unfold Np.clip, Np.maximum, Np.minimum.
  rewrite (ltb_not_leb _ _ H). destruct (ltb_not_nan _ _ H) as [-> _]. simpl.
  by vm_compute.
Qed.

Lemma clip_above x :
  F64.ltb F64.one x = true ->
  Np.clip x (F64.lit 5 100) F64.one = F64.one.
Proof.
  intros H. unfold Np.clip, Np.maximum, Np.minimum.
  rewrite (leb_ltb_trans (F64.lit 5 100) F64.one x); [|by vm_compute|done].
  simpl. rewrite (ltb_not_leb _ _ H). by destruct (ltb_not_nan _ _ H) as [_ ->].
Qed.

Lemma clip_range x :
  F64.is_nan x = false ->
  F64.leb (F64.lit 5 100) (Np.clip x (F64.lit 5 100) F64.one) = true
  /\ F64.leb (Np.clip x (F64.lit 5 100) F64.one) F64.one = true.
Proof.
  intros H. unfold Np.clip, Np.maximum, Np.minimum. rewrite H, orb_false_r.
  destruct (F64.leb (F64.lit 5 100) x) eqn:E1.
  - rewrite H, orb_false_r. destruct (F64.leb x F64.one) eqn:E2; [done|].
    by vm_compute.
  - by vm_compute.
Qed.

Lemma round_aux_nonneg m e l :
  F64.nonneg (binary_round_aux F64.prec F64.emax false m e l) = true.
Proof.
  unfold binary_round_aux.
  destruct (shr_fexp _ _ m e l) as [mrs e'].
  destruct (shr_fexp _ _ _ e' loc_Exact) as [mrs' e''].
  destruct (shr_m mrs'); [done| |done]. by destruct (_ <=? _)%Z.
Qed.

Lemma normalize_nonneg z e :
  (0 <= z)%Z -> F64.nonneg (binary_normalize F64.prec F64.emax z e false) = true.
Proof.
  destruct z as [|p|p]; [done| |lia]. intros _. unfold binary_normalize, binary_round.
  destruct (shl_align _ _ _) as [mz ez]. apply round_aux_nonneg.
Qed.

Lemma of_nat_nonneg n : F64.nonneg (F64.of_nat n) = true.
Proof. apply normalize_nonneg. lia. Qed.

Lemma add_nonneg x y :
  F64.nonneg x = true -> F64.nonneg y = true -> F64.nonneg (F64.add x y) = true.
Proof.
  destruct x as [[]|[]| |[] mx ex], y as [[]|[]| |[] my ey]; try done.
  intros _ _. unfold F64.add, SFadd. apply normalize_nonneg. simpl. lia.
Qed.

Lemma div_nonneg x y :
  F64.nonneg x = true -> F64.nonneg y = true -> F64.nonneg (F64.div x y) = true.
Proof.
  destruct x as [[]|[]| |[] mx ex], y as [[]|[]| |[] my ey]; try done.
  intros _ _. unfold F64.div, SFdiv.
  destruct (SFdiv_core_binary _ _ _ _ _ _) as [[mz ez] lz]. apply round_aux_nonneg.
Qed.

Lemma floor_of_nonneg x z :
  F64.nonneg x = true -> Py.int x = Ok z -> F64.floor x = Some z.
Proof.
  destruct x as [[]|[]| |[] mx ex]; try done; unfold Py.int; simpl; congruence.
Qed.

Lemma foldl_add_not_finite_acc l : forall a,
  F64.is_finite a = false -> F64.is_finite (foldl F64.add a l) = false.
Proof.
  induction l as [|x r IH]; intros a H; simpl; [done|].
  apply IH. by apply add_not_finite_l.
Qed.

Lemma foldl_add_not_finite l : forall a x,
  x ∈ l -> F64.is_finite x = false -> F64.is_finite (foldl F64.add a l) = false.
Proof.
  induction l as [|y r IH]; intros a x Hin Hx; [by apply elem_of_nil in Hin|].
  apply elem_of_cons in Hin as [<-|Hin]; simpl.
  - apply foldl_add_not_finite_acc. by apply add_not_finite_r.
  - by apply (IH _ x).
Qed.

Lemma sum_not_finite l x :
  x ∈ l -> F64.is_finite x = false -> F64.is_finite (Np.sum l) = false.
Proof.
  unfold Np.sum. destruct l as [|y r]; [by intros H%elem_of_nil|].
  intros [<-|Hin]%elem_of_cons Hx.
  - by apply foldl_add_not_finite_acc.
  - by apply (foldl_add_not_finite _ _ x).
Qed.

Lemma mean_not_finite l x :
  x ∈ l -> F64.is_finite x = false -> F64.is_finite (Np.mean l) = false.
Proof.
  intros. apply div_not_finite_l. by apply (sum_not_finite _ x).
Qed.

Lemma std_not_finite l x :
  x ∈ l -> F64.is_finite x = false -> F64.is_finite (Np.std l) = false.
Proof.
  intros Hin Hx. apply sqrt_not_finite. unfold Np.var.
  set (m := Np.mean l).
  apply (mean_not_finite _ (F64.mul (F64.sub x m) (F64.sub x m))).
  - by apply (list_elem_of_fmap_2 (fun x => F64.mul (F64.sub x m) (F64.sub x m))).
  - apply mul_self_not_finite, sub_not_finite_l, Hx.
Qed.

(** ** Loops and lists in the error monad *)

Lemma for_loop_invariant {A B} (P : A -> Prop) (body : A -> B -> result A) items :
  forall acc acc',
  P acc ->
  (forall a x a', P a -> body a x = Ok a' -> P a') ->
  Py.for_loop body acc items = Ok acc' -> P acc'.
Proof.
  induction items as [|x rest IH]; intros acc acc' H0 Hstep; simpl.
  - by intros [= <-].
  - destruct (body acc x) as [a|] eqn:E; simpl; [|done].
    apply IH; [|done]. by apply (Hstep acc x).
Qed.

Lemma mapM_result {A B} (f : A -> result B) l : forall bs,
  mapM f l = Ok bs -> Forall2 (fun a b => f a = Ok b) l bs.
Proof.
  induction l as [|a l IH]; intros bs; simpl.
  - intros [= <-]. constructor.
  - destruct (f a) as [b|] eqn:E; simpl; [|done].
    destruct (mapM f l) as [bs'|]; simpl; [|done].
    intros [= <-]. constructor; [done|]. by apply IH.
Qed.

Ltac bind_cases H :=
  repeat match type of H with
  | context [mbind _ ?m] => destruct m eqn:?; simpl in H; [|discriminate H]
  end.

Lemma index_ok {A} (a : list A) i x : Py.index a i = Ok x <-> a !! i = Some x.
Proof. unfold Py.index. destruct (a !! i); split; congruence. Qed.

Lemma take_rows_ok rows a sel :
  Np.take_rows rows a = Ok sel ->
  Forall2 (fun i row => a !! i = Some row) rows sel.
Proof.
  intros H%mapM_result. eapply Forall2_impl; [done|].
  intros i row. apply index_ok.
Qed.

Lemma slice_last_all {A} k (a : list A) :
  (k = 0 \/ Z.of_nat (length a) <= k)%Z -> Py.slice_last k a = a.
Proof.
  intros H. unfold Py.slice_last. destruct (Z.eqb_spec k 0); [done|].
  destruct (Z.ltb_spec 0 k); [|lia].
  replace (length a - Z.to_nat k) with 0 by lia. done.
Qed.

(** ** The second half of the tick *)

Lemma calib_after_length self idx :
  length (calib_after self idx) =
    if (calib_length self <? Z.of_nat (S (length (engagement_calib self))))%Z
    then length (engagement_calib self)
    else S (length (engagement_calib self)).
Proof.
  unfold calib_after. rewrite length_app. simpl.
  replace (length (engagement_calib self) + 1) with
    (S (length (engagement_calib self))) by lia.
  destruct (_ <? _)%Z; [|by rewrite length_app; simpl; lia].
  rewrite length_drop, length_app. simpl. lia.
Qed.

Lemma hist_evicted_length self :
  length (hist_evicted self) =
    if (hist_length self <? Z.of_nat (length (engagement_hist self)))%Z
    then length (engagement_hist self) - 1
    else length (engagement_hist self).
Proof.
  unfold hist_evicted. destruct (_ <? _)%Z; [|done]. by rewrite length_drop.
Qed.

(** A tick that gets through its second half has appended the normalized
    value to the evicted smoothing history and publishes. *)
Lemma engage_done self idx head bands self' out :
  engage self idx head bands = Done self' out ->
  let calib := calib_after self idx in
  let hist := hist_evicted self ++ [engagement_z_of self calib idx] in
  let power :=
    Np.float32 (F64.add (weighted_mean hist)
                  (F64.mul (F64.sub F64.one head) (head_impact self))) in
  self' = with_engagement self calib hist (weighted_mean hist) power
  /\ out = Some {| pub_bands := bands; pub_power := power |}.
Proof.
  unfold engage, hist_evicted.
  destruct (_ <? _)%Z.
  - destruct (engagement_hist self) as [|x r]; simpl; [done|].
    rewrite drop_0. intros [= <- <-]. done.
  - intros [= <- <-]. done.
Qed.

(** The second half raises only when it has to delete from an empty
    smoothing history. *)
Lemma engage_raised self idx head bands e self' :
  engage self idx head bands = Raised e self' ->
  engagement_hist self = [] /\ (hist_length self < 0)%Z.
Proof.
  unfold engage. destruct (_ <? _)%Z eqn:E.
  - destruct (engagement_hist self) as [|x r]; simpl in *; [|done].
    intros _. split; [done|]. apply Z.ltb_lt in E. simpl in E. lia.
  - done.
Qed.

Lemma update_done DF self board self' p :
  _update DF self board = Done self' (Some p) ->
  exists idx head bands,
    measure DF self board = Ok (Some (idx, head, bands))
    /\ engage self idx head bands = Done self' (Some p).
Proof.
  unfold _update. destruct (measure DF self board) as [[[[idx head] bands]|]|e].
  - intros H. by exists idx, head, bands.
  - done.
  - done.
Qed.

(** Every tick leaves the configuration as it was. *)
Lemma update_keeps_lengths DF self board :
  calib_length (state_of (_update DF self board)) = calib_length self
  /\ hist_length (state_of (_update DF self board)) = hist_length self.
Proof.
  unfold _update. destruct (measure DF self board) as [[[[idx head] bands]|]|e];
    simpl; try done.
  unfold engage. destruct (_ <? _)%Z; [destruct (Py.del0 _)|]; done.
Qed.

(** The lengths of the two histories after a tick, whatever its end. *)
Lemma update_calib_length DF self board :
  let self' := state_of (_update DF self board) in
  length (engagement_calib self') = length (engagement_calib self)
  \/ length (engagement_calib self') = length (calib_after self F64.zero).
Proof.
  unfold _update. destruct (measure DF self board) as [[[[idx head] bands]|]|e];
    simpl; try (by left).
  right. rewrite !calib_after_length.
  unfold engage. destruct (_ <? _)%Z; [destruct (Py.del0 _)|]; simpl;
    by rewrite calib_after_length.
Qed.

Lemma update_hist_length DF self board :
  let self' := state_of (_update DF self board) in
  length (engagement_hist self') = length (engagement_hist self)
  \/ length (engagement_hist self') = S (length (hist_evicted self)).
Proof.
  unfold _update. destruct (measure DF self board) as [[[[idx head] bands]|]|e];
    simpl; try (by left).
  unfold engage, hist_evicted. destruct (_ <? _)%Z.
  - destruct (engagement_hist self) as [|x r]; simpl; [by left|].
    right. rewrite drop_0, length_app. simpl. lia.
  - right. simpl. rewrite length_app. simpl. lia.
Qed.

Lemma run_invariant (P : IXRDashboard -> Prop) DF boards : forall self,
  P self ->
  (forall s b, P s -> P (state_of (_update DF s b))) ->
  P (state_of (run DF self boards)).
Proof.
  induction boards as [|board rest IH]; intros self H0 Hstep; [done|].
  simpl. specialize (Hstep self board H0) as H1.
  destruct (_update DF self board) as [self' out|e self']; [|done].
  destruct rest as [|b r]; [done|]. apply IH; done.
Qed.

Lemma set_parameters_histories self c p scale offset impact self' :
  set_parameters self c p scale offset impact = Ok self' ->
  engagement_calib self' = engagement_calib self
  /\ engagement_hist self' = engagement_hist self.
Proof.
  unfold set_parameters.
  destruct (int_truediv (c * 1000) _ ≫= Py.int) as [a|]; [|done].
  destruct (int_truediv (p * 1000) _ ≫= Py.int) as [b|]; [|done].
  simpl. intros [= <-]. done.
Qed.

Lemma init_histories DF info r d self :
  __init__ DF info r d = Ok self ->
  engagement_calib self = [F64.zero; F64.one]
  /\ engagement_hist self = [F64.zero; F64.one].
Proof.
  unfold __init__.
  destruct (mapM _ _) as [chs|]; [|done]. simpl.
  intros H. apply set_parameters_histories in H. done.
Qed.

Lemma fresh_dashboard_eq : fresh_dashboard = Ok headband_dashboard.
Proof. vm_compute. reflexivity. Qed.

Lemma headband_dashboard_reachable : reachable headband_filter headband_dashboard.
Proof. apply (reachable_init _ headband_info "mean" false). apply fresh_dashboard_eq. Qed.

Lemma run_reachable DF self boards :
  reachable DF self -> reachable DF (state_of (run DF self boards)).
Proof.
  intros H. apply (run_invariant (reachable DF)); [done|].
  intros s b Hs. by apply reachable_update.
Qed.

Lemma reachable_hist DF self :
  reachable DF self -> 2 <= length (engagement_hist self).
Proof.
  induction 1 as [info r d self H|self c p sc o i self' _ IH H|self board _ IH].
  - apply init_histories in H as [_ ->]. simpl. lia.
  - apply set_parameters_histories in H as [_ ->]. done.
  - destruct (update_hist_length DF self board) as [->| ->]; [done|].
    rewrite hist_evicted_length. destruct (_ <? _)%Z; lia.
Qed.

Lemma reachable_calib DF self :
  reachable DF self -> 2 <= length (engagement_calib self).
Proof.
  induction 1 as [info r d self H|self c p sc o i self' _ IH H|self board _ IH].
  - apply init_histories in H as [-> _]. simpl. lia.
  - apply set_parameters_histories in H as [-> _]. done.
  - destruct (update_calib_length DF self board) as [->| ->]; [done|].
    rewrite calib_after_length. destruct (_ <? _)%Z; lia.
Qed.

Lemma calib_after_has_index self idx :
  1 <= length (engagement_calib self) -> idx ∈ calib_after self idx.
Proof.
  intros H. unfold calib_after. destruct (_ <? _)%Z.
  - destruct (engagement_calib self) as [|x r]; simpl in *; [lia|].
    rewrite drop_0. apply elem_of_app. right. by apply list_elem_of_singleton.
  - apply elem_of_app. right. by apply list_elem_of_singleton.
Qed.

(** ** The capacity of the histories *)

(** The calibration history appends first and evicts then: once within its
    capacity it stays there. *)
Lemma calib_within_capacity DF self boards :
  (Z.of_nat (length (engagement_calib self)) <= calib_length self)%Z ->
  let self' := state_of (run DF self boards) in
  (Z.of_nat (length (engagement_calib self')) <= calib_length self')%Z.
Proof.
  intros H. apply (run_invariant
    (fun s => (Z.of_nat (length (engagement_calib s)) <= calib_length s)%Z));
    [done|].
  intros s b Hs. destruct (update_keeps_lengths DF s b) as [-> _].
  destruct (update_calib_length DF s b) as [->| ->]; [done|].
  rewrite calib_after_length. destruct (Z.ltb_spec (calib_length s)
    (Z.of_nat (S (length (engagement_calib s))))); lia.
Qed.

(** The smoothing history evicts first and appends then: it stays within one
    entry above its capacity. *)
Lemma hist_one_over_capacity DF self boards :
  (0 <= hist_length self)%Z ->
  (Z.of_nat (length (engagement_hist self)) <= hist_length self + 1)%Z ->
  let self' := state_of (run DF self boards) in
  (Z.of_nat (length (engagement_hist self')) <= hist_length self' + 1)%Z.
Proof.
  intros H0 H.
  apply (run_invariant (fun s =>
    (0 <= hist_length s)%Z
    /\ (Z.of_nat (length (engagement_hist s)) <= hist_length s + 1)%Z));
    [done|].
  intros s b [Hs0 Hs]. destruct (update_keeps_lengths DF s b) as [_ ->].
  split; [done|].
  destruct (update_hist_length DF s b) as [->| ->]; [done|].
  rewrite hist_evicted_length.
  destruct (Z.ltb_spec (hist_length s) (Z.of_nat (length (engagement_hist s))));
    lia.
Qed.

(** A publishing tick that starts with the smoothing history at its capacity,
    or one above, ends with it one above. *)
Lemma hist_exceeds_capacity DF self board self' p :
  (0 <= hist_length self)%Z ->
  (hist_length self <= Z.of_nat (length (engagement_hist self))
   <= hist_length self + 1)%Z ->
  _update DF self board = Done self' (Some p) ->
  (Z.of_nat (length (engagement_hist self')) = hist_length self' + 1)%Z.
Proof.
  intros H0 H (idx & head & bands & _ & E)%update_done.
  apply engage_done in E as [-> _]. simpl.
  rewrite length_app, hist_evicted_length. simpl.
  destruct (Z.ltb_spec (hist_length self)
    (Z.of_nat (length (engagement_hist self)))); lia.
Qed.

(** C1. With the default configuration ([hist_length] = 100), 99 ticks after
    construction the smoothing history holds 101 entries: the eviction test
    runs before the append, so the history settles one above its capacity.
    (The calibration history, which appends first, stays within its own.) *)
Theorem smoothing_history_over_capacity :
  let self' :=
    state_of (run headband_filter headband_dashboard
                (replicate 99 startup_board)) in
  hist_length self' = 100%Z
  /\ length (engagement_hist self') = 101
  /\ calib_length self' = 6000%Z
  /\ length (engagement_calib self') = 101.
Proof. repeat split; vm_compute; reflexivity. Qed.

(** ** Smoothing *)

Lemma weighted_loop hist : forall w s c,
  foldl weighted_step (w, s, c) hist =
    (foldl F64.add w (imap (fun i v => F64.mul v (F64.of_nat (c + i))) hist),
     s + sum_list (seq c (length hist)), c + length hist).
Proof.
  induction hist as [|x r IH]; intros w s c; simpl.
  - f_equal; [f_equal|]; lia.
  - rewrite IH. rewrite Nat.add_0_r. f_equal; [f_equal|]; [|lia|lia].
    f_equal. apply imap_ext. intros i v _. simpl. do 2 f_equal. lia.
Qed.

Lemma weighted_sums_eq hist :
  weighted_sums hist = (weighted_total hist, weight_total (length hist)).
Proof.
  unfold weighted_sums, weighted_total, weight_total.
  rewrite weighted_loop. simpl. done.
Qed.

Lemma weight_total_pos n : 2 <= n -> 1 <= weight_total n.
Proof.
  unfold weight_total. destruct n as [|[|n]]; [lia..|]. intros _. simpl. lia.
Qed.

(** C10. In every reachable state the smoothing history holds at least two
    entries when the weighted mean is taken (it is seeded with two, and the
    eviction removes at most one before the append), so the sum of the
    weights, the denominator of the weighted mean, is at least 1: the
    second half of the tick never divides by zero and always returns. *)
Theorem smoothing_weights_positive DF self idx head bands :
  reachable DF self ->
  let hist := hist_evicted self ++ [engagement_z_of self (calib_after self idx) idx] in
  exists self',
    engage self idx head bands
      = Done self' (Some {| pub_bands := bands; pub_power := power_metrics self' |})
    /\ engagement_hist self' = hist
    /\ engagement self' = weighted_mean hist
    /\ 2 <= length hist
    /\ weighted_sums hist = (weighted_total hist, weight_total (length hist))
    /\ 1 <= weight_total (length hist).
Proof.
  intros Hr hist. pose proof (reachable_hist DF self Hr) as Hlen.
  assert (2 <= length hist) as H2.
  { subst hist. rewrite length_app, hist_evicted_length. simpl.
    destruct (_ <? _)%Z; lia. }
  destruct (engage self idx head bands) as [self' out|e self'] eqn:E.
  - apply engage_done in E as [-> ->].
    match goal with |- exists s, Done ?t _ = _ /\ _ => exists t end.
    split; [reflexivity|]. simpl.
    repeat split; try done.
    + apply weighted_sums_eq.
    + by apply weight_total_pos.
  - apply engage_raised in E as [E _]. rewrite E in Hlen. simpl in Hlen. lia.
Qed.

(** C6. The calibrated engagement is the recency-weighted mean of the
    smoothing history: the sum of [value_i * i] over the sum of [i], with
    the index [i] counted from 0 at the oldest entry. For the history
    [[0.2, 0.4, 0.6]] it is [1.6 / 3]. *)
Theorem weighted_mean_formula :
  (forall hist, weighted_mean hist =
     F64.div (weighted_total hist) (F64.of_nat (weight_total (length hist))))
  /\ (forall self idx head bands self' out,
        engage self idx head bands = Done self' out ->
        engagement self' = weighted_mean (engagement_hist self'))
  /\ weighted_mean [F64.lit 2 10; F64.lit 4 10; F64.lit 6 10]
       = F64.div (F64.lit 16 10) (F64.of_Z 3).
Proof.
  split; [|split].
  - intros hist. unfold weighted_mean. by rewrite weighted_sums_eq.
  - intros * E. by apply engage_done in E as [-> _].
  - vm_compute. done.
Qed.

(** ** Normalization and degenerate statistics *)

(** C5. The value appended to the smoothing history is the raw index minus
    the mean of the calibration history, over its standard deviation, over
    [2 * scale], plus the center offset, clipped to [[0.05, 1]]: a value
    below 0.05 becomes 0.05, a value above 1 becomes 1, and every value
    that is a number ends up between the two. *)
Theorem normalized_engagement_clipped :
  (forall self idx head bands self' out,
     engage self idx head bands = Done self' out ->
     let calib := engagement_calib self' in
     calib = calib_after self idx
     /\ last (engagement_hist self') =
       Some (Np.clip
               (F64.add
                  (F64.div
                     (F64.div (F64.sub idx (Np.mean calib)) (Np.std calib))
                     (F64.mul (F64.of_Z 2) (brain_scale self)))
                  (brain_center self))
               (F64.lit 5 100) F64.one))
  /\ (forall x, F64.ltb x (F64.lit 5 100) = true ->
        Np.clip x (F64.lit 5 100) F64.one = F64.lit 5 100)
  /\ (forall x, F64.ltb F64.one x = true ->
        Np.clip x (F64.lit 5 100) F64.one = F64.one)
  /\ (forall x, F64.is_nan x = false ->
        F64.leb (F64.lit 5 100) (Np.clip x (F64.lit 5 100) F64.one) = true
        /\ F64.leb (Np.clip x (F64.lit 5 100) F64.one) F64.one = true).
Proof.
  split; [|split; [|split]].
  - intros * E. apply engage_done in E as [-> _]. simpl. split; [done|].
    by rewrite last_snoc.
  - apply clip_below.
  - apply clip_above.
  - apply clip_range.
Qed.

Lemma weighted_mean_nan hist : weighted_mean (hist ++ [F64.nan]) = F64.nan.
Proof.
  unfold weighted_mean, weighted_sums. rewrite foldl_app. simpl.
  destruct (foldl weighted_step _ hist) as [[w s] c]. simpl.
  by rewrite add_nan_r.
Qed.

Lemma engagement_z_nan self calib idx :
  F64.div (F64.sub idx (Np.mean calib)) (Np.std calib) = F64.nan ->
  engagement_z_of self calib idx = F64.nan.
Proof.
  unfold engagement_z_of. intros ->. by rewrite clip_nan.
Qed.

(** C2, as amended. Degenerate statistics are not guarded. A zero gamma
    band power makes the term of the channel infinite or NaN, and so the
    engagement sum it is added to. In every reachable state, a raw index
    that is not finite, or a calibration history with standard deviation
    zero whose mean equals the raw index, gives a z-score that is NaN; the
    clip hands it on, it is appended to the smoothing history, and the tick
    publishes NaN as its power metric. *)
Theorem degenerate_statistics_unguarded :
  (forall beta theta alpha gamma engagement_idx,
     F64.is_zero gamma = true ->
     F64.is_finite (engagement_term beta theta alpha gamma) = false
     /\ F64.is_finite
          (F64.add engagement_idx (engagement_term beta theta alpha gamma))
        = false)
  /\ (forall DF self idx head bands,
        reachable DF self ->
        F64.is_finite idx = false
        \/ (F64.is_zero (Np.std (calib_after self idx)) = true
            /\ F64.is_zero (F64.sub idx (Np.mean (calib_after self idx))) = true) ->
        exists self',
          engage self idx head bands
            = Done self' (Some {| pub_bands := bands; pub_power := F64.nan |})
          /\ last (engagement_hist self') = Some F64.nan
          /\ power_metrics self' = F64.nan).
Proof.
  split.
  - intros * Hg. assert (F64.is_finite (engagement_term beta theta alpha gamma) = false)
      as H by (by apply div_by_zero_not_finite).
    split; [done|]. by apply add_not_finite_r.
  - intros DF self idx head bands Hr Hdeg.
    assert (engagement_z_of self (calib_after self idx) idx = F64.nan) as Hz.
    { apply engagement_z_nan. destruct Hdeg as [Hinf|[Hs Hm]].
      - pose proof (reachable_calib DF self Hr) as Hlen.
        assert (idx ∈ calib_after self idx) as Hin
          by (apply calib_after_has_index; lia).
        apply div_not_finite_both.
        + by apply sub_not_finite_l.
        + by apply (std_not_finite _ idx).
      - by apply div_zero_zero. }
    destruct (engage self idx head bands) as [self' out|e self'] eqn:E.
    + apply engage_done in E as [-> ->]. rewrite Hz, weighted_mean_nan.
      match goal with |- exists s, Done ?t _ = _ /\ _ => exists t end.
      split; [reflexivity|]. simpl. split; [by rewrite last_snoc|reflexivity].
    + apply engage_raised in E as [E _].
      pose proof (reachable_hist DF self Hr) as Hlen. rewrite E in Hlen.
      simpl in Hlen. lia.
Qed.

(** C2, counterexample. With a calibration length of one second, ten ticks
    on start-up windows fill the calibration history with zeros; the tenth
    tick divides zero by a zero standard deviation and publishes NaN. *)
Lemma published_nan_at_tick_ten :
  short_calibration = Ok short_dashboard
  /\ calib_length short_dashboard = 10%Z
  /\ published_of (run headband_filter short_dashboard
                     (replicate 10 startup_board))
     = Some {| pub_bands := [0; 0; 0; 0; 0]%Z; pub_power := F64.nan |}.
Proof. repeat split; vm_compute; reflexivity. Qed.

(** ** The first half of the tick *)

Lemma measure_some DF self board idx head bands :
  measure DF self board = Ok (Some (idx, head, bands)) ->
  exists bad_channels sums engagement_sum,
    tick_phases DF self board bad_channels sums engagement_sum head bands
    /\ idx = raw_engagement bad_channels engagement_sum.
Proof.
  unfold measure, tick_phases.
  destruct (is_prepared board); simpl; [|done].
  destruct (pull_windows self board) as [[[eeg gyro] ppg]|e].
  2: { destruct e as [code| | | | |]; try done. by destruct (exit_code_eqb _ _). }
  destruct (_ || _); [done|].
  destruct (detect_bad_channels self eeg) as [bad|] eqn:Hbad; simpl; [|done].
  destruct (rereference self eeg) as [eeg'|] eqn:Href; simpl; [|done].
  destruct (head_movement_of self gyro) as [h|] eqn:Hhead; simpl; [|done].
  destruct (ppg_filter DF self ppg) as [shown|] eqn:Hppg; simpl; [|done].
  destruct (eeg_processing DF self bad eeg') as [[[eeg'' sums] acc]|] eqn:Hloop;
    simpl; [|done].
  destruct (mapM (band_average self) sums) as [bs|] eqn:Hbands; simpl; [|done].
  intros [= <- <- <-]. exists bad, sums, acc. split; [|done].
  exists eeg, gyro, ppg, eeg', eeg''. repeat split; try done. by exists shown.
Qed.

(** A tick is given up only at its three guards. *)
Lemma measure_none DF self board :
  measure DF self board = Ok None ->
  is_prepared board = false
  \/ pull_windows self board = Raise (BrainFlowError INVALID_ARGUMENTS_ERROR)
  \/ exists eeg_data gyro_data ppg_data,
       pull_windows self board = Ok (eeg_data, gyro_data, ppg_data)
       /\ (length eeg_data < 1 \/ length gyro_data < 1 \/ length ppg_data < 1).
Proof.
  unfold measure. destruct (is_prepared board); simpl; [|by left].
  destruct (pull_windows self board) as [[[eeg gyro] ppg]|e].
  2: { destruct e as [code| | | | |]; try done. destruct code; try done.
       intros _. by right; left. }
  destruct (_ || _) eqn:E.
  - intros _. right; right. exists eeg, gyro, ppg. split; [done|].
    rewrite !orb_true_iff, !Nat.ltb_lt in E. tauto.
  - intros H. exfalso. bind_cases H.
    repeat match type of H with context [let (_, _) := ?p in _] =>
      destruct p end.
    simpl in H. bind_cases H. done.
Qed.

(** What holds of the guards of the tick. *)
Lemma tick_aborts_cleanly DF self board :
  (is_prepared board = false -> _update DF self board = Done self None)
  /\ (is_prepared board = true ->
      pull_windows self board = Raise (BrainFlowError INVALID_ARGUMENTS_ERROR) ->
      _update DF self board = Done self None)
  /\ (forall eeg_data gyro_data ppg_data,
      is_prepared board = true ->
      pull_windows self board = Ok (eeg_data, gyro_data, ppg_data) ->
      length eeg_data < 1 \/ length gyro_data < 1 \/ length ppg_data < 1 ->
      _update DF self board = Done self None)
  /\ (forall e,
      is_prepared board = true ->
      pull_windows self board = Raise e ->
      e <> BrainFlowError INVALID_ARGUMENTS_ERROR ->
      _update DF self board = Raised e self).
Proof.
  unfold _update, measure. repeat split.
  - by intros ->.
  - by intros -> ->.
  - intros eeg gyro ppg -> -> H. simpl.
    replace (_ || _) with true; [done|].
    symmetry. rewrite !orb_true_iff, !Nat.ltb_lt. tauto.
  - intros e -> -> He. simpl.
    destruct e as [code| | | | |]; try done. by destruct code.
Qed.

(** Past its guards a tick is never given up: it publishes or it raises. *)
Lemma update_past_guards DF self board eeg_data gyro_data ppg_data :
  is_prepared board = true ->
  pull_windows self board = Ok (eeg_data, gyro_data, ppg_data) ->
  1 <= length eeg_data -> 1 <= length gyro_data -> 1 <= length ppg_data ->
  forall self', _update DF self board <> Done self' None.
Proof.
  intros Hp Hpull H1 H2 H3 self' H. unfold _update in H.
  destruct (measure DF self board) as [[[[idx head] bands]|]|e] eqn:E.
  - destruct (engage self idx head bands) as [s out|] eqn:E'; [|done].
    apply engage_done in E' as [_ ->]. done.
  - apply measure_none in E as [E|[E|(eeg & gyro & ppg & E & Hlen)]].
    + congruence.
    + congruence.
    + rewrite Hpull in E. injection E as <- <- <-. lia.
  - done.
Qed.

(** C3. An EEG window that holds its rows but no sample passes the guard,
    which counts the rows of the two-dimensional windows: the tick is not
    given up. Whatever the filters do, it raises or it publishes. With
    filters that turn an empty row down, as brainflow's do, the tick raises
    the very error that the guard around the pull lets pass; with filters
    that take it, the tick appends to both histories and publishes. *)
Theorem empty_eeg_window_not_aborted :
  (forall DF,
     (exists e self', _update DF headband_dashboard eeg_drained_board
                      = Raised e self')
     \/ (exists self' p, _update DF headband_dashboard eeg_drained_board
                         = Done self' (Some p)))
  /\ _update headband_filter headband_dashboard eeg_drained_board
     = Raised (BrainFlowError INVALID_ARGUMENTS_ERROR) headband_dashboard
  /\ (let taken := _update lenient_filter headband_dashboard eeg_drained_board in
      pub_bands <$> published_of taken = Some [0; 0; 0; 0; 0]%Z
      /\ length (engagement_calib (state_of taken)) = 3
      /\ length (engagement_hist (state_of taken)) = 3).
Proof.
  split; [|repeat split; vm_compute; reflexivity].
  intros DF.
  destruct (_update DF headband_dashboard eeg_drained_board)
    as [self' [p|]|e self'] eqn:E.
  - right. by exists self', p.
  - exfalso. revert E. eapply update_past_guards.
    + reflexivity.
    + vm_compute. reflexivity.
    + simpl. lia.
    + simpl. lia.
    + simpl. lia.
  - left. by exists e, self'.
Qed.

(** C4. In every tick that reaches its measurements the raw engagement index
    is the engagement sum of the channel loop over 4 minus the number of bad
    channels, and it is 0 when four channels are bad. *)
Theorem raw_engagement_index DF self board idx head bands :
  measure DF self board = Ok (Some (idx, head, bands)) ->
  exists bad_channels sums engagement_sum,
    tick_phases DF self board bad_channels sums engagement_sum head bands
    /\ (length bad_channels <> 4 ->
        idx = F64.div engagement_sum
                (F64.of_Z (4 - Z.of_nat (length bad_channels))))
    /\ (length bad_channels = 4 -> idx = F64.zero).
Proof.
  intros (bad & sums & acc & Hphases & ->)%measure_some.
  exists bad, sums, acc. split; [done|]. unfold raw_engagement.
  destruct (Nat.eqb_spec (length bad) 4) as [E|Hne]; simpl; split; done.
Qed.

Lemma zip_add_nonneg sums : forall powers,
  Forall (fun s => F64.nonneg s = true) sums ->
  Forall (fun s => F64.nonneg s = true) powers ->
  Forall (fun s => F64.nonneg s = true) (zip_with F64.add sums powers).
Proof.
  induction sums as [|s sums IH]; intros [|p powers] Hs Hp; simpl;
    try constructor.
  - apply add_nonneg; [by inversion Hs|by inversion Hp].
  - apply IH; [by inversion Hs|by inversion Hp].
Qed.

Lemma eeg_step_band_sums DF self bad acc ch acc' :
  (forall psd lo hi v, get_band_power DF psd lo hi = Ok v -> F64.nonneg v = true) ->
  band_sums_ok acc ->
  eeg_step DF self bad acc ch = Ok acc' ->
  band_sums_ok acc'.
Proof.
  intros Hpow [Hlen Hpos]. destruct acc as [[eeg sums] idx].
  destruct ch as [graph_number ch]. simpl in *.
  unfold eeg_step. intros H. simpl in H. bind_cases H.
  destruct (_ <? _)%Z; [by injection H as <-|].
  destruct (negb _); [|by injection H as <-].
  simpl in H. bind_cases H.
  match type of H with context [zip_with F64.add sums ?powers] =>
    assert (band_sums_ok (eeg, zip_with F64.add sums powers, idx)) as [? ?]
  end.
  { split; simpl.
    - rewrite length_zip_with. simpl. lia.
    - apply zip_add_nonneg; [done|]. repeat constructor; eauto. }
  destruct (channel_in _ _); injection H as <-; by split.
Qed.

Lemma eeg_processing_band_sums DF self bad eeg eeg' sums idx :
  (forall psd lo hi v, get_band_power DF psd lo hi = Ok v -> F64.nonneg v = true) ->
  eeg_processing DF self bad eeg = Ok (eeg', sums, idx) ->
  length sums = 5 /\ Forall (fun s => F64.nonneg s = true) sums.
Proof.
  intros Hpow H. unfold eeg_processing in H.
  apply (for_loop_invariant band_sums_ok) in H; [done| |].
  - split; simpl; [done|]. repeat constructor.
  - intros a x a' Ha. by apply eeg_step_band_sums.
Qed.

(** C9. With band powers that are not negative, each of the five published
    band values is the sum of that band over the channels of the loop,
    divided by the number of all configured channels (reference channels
    and channels without a contribution included) and rounded down:
    [int()] cuts the fraction off, which on such a quotient is the floor. *)
Theorem band_averages_published DF self board self' p :
  (forall psd lo hi v, get_band_power DF psd lo hi = Ok v -> F64.nonneg v = true) ->
  _update DF self board = Done self' (Some p) ->
  exists bad_channels sums engagement_sum head,
    tick_phases DF self board bad_channels sums engagement_sum head (pub_bands p)
    /\ length sums = 5 /\ length (pub_bands p) = 5
    /\ forall i s b,
         sums !! i = Some s -> pub_bands p !! i = Some b ->
         Py.int (F64.div s (F64.of_nat (length (eeg_channels self)))) = Ok b
         /\ F64.floor (F64.div s (F64.of_nat (length (eeg_channels self))))
            = Some b.
Proof.
  intros Hpow (idx & head & bands & Hm & He)%update_done.
  apply engage_done in He as [_ [= ->]]. simpl.
  apply measure_some in Hm as (bad & sums & acc & Hphases & _).
  exists bad, sums, acc, head. split; [done|].
  destruct Hphases as (eeg & gyro & ppg & eeg' & eeg'' & _ & _ & _ & _ & _ & _ & Hloop & Hbands).
  apply eeg_processing_band_sums in Hloop as [Hlen Hpos]; [|done].
  apply mapM_result in Hbands.
  split; [done|]. split; [by rewrite <- (Forall2_length _ _ _ Hbands)|].
  intros i s b Hs Hb.
  assert (band_average self s = Ok b) as Hav.
  { destruct (Forall2_lookup_l _ _ _ _ _ Hbands Hs) as (b' & Hb' & ?). congruence. }
  unfold band_average in Hav. destruct (Nat.eqb _ 0); [done|].
  split; [done|]. apply floor_of_nonneg; [|done].
  apply div_nonneg; [|apply of_nat_nonneg].
  rewrite Forall_lookup in Hpos. by apply (Hpos i).
Qed.

(** ** Re-referencing *)

Lemma store_rows_lookup (a : matrix) (f : list float -> list float) upd :
  Forall (fun entry => exists row, a !! entry.1 = Some row /\ entry.2 = f row) upd ->
  length (foldl store_row a upd) = length a
  /\ forall j,
       (j ∈ upd.*1 -> foldl store_row a upd !! j = f <$> a !! j)
       /\ (j ∉ upd.*1 -> foldl store_row a upd !! j = a !! j).
Proof.
  induction upd as [|[i row'] upd IH] using rev_ind; intros Hall.
  - split; [done|]. intros j. split; [by intros H%elem_of_nil|done].
  - apply Forall_app in Hall as [Hupd Hlast].
    apply Forall_singleton in Hlast as (row & Hrow & Hrow'). simpl in *.
    destruct (IH Hupd) as [Hlen Hlook]. rewrite foldl_app.
    change (foldl store_row (foldl store_row a upd) [(i, row')])
      with (<[i:=row']> (foldl store_row a upd)).
    unfold matrix in *. split; [by rewrite length_insert|].
    intros j. rewrite fmap_app, elem_of_app. simpl. rewrite list_elem_of_singleton.
    destruct (decide (j = i)) as [->|Hne].
    + split; [|tauto]. intros _.
      rewrite list_lookup_insert_eq, Hrow, Hrow'; [done|].
      rewrite Hlen. by apply lookup_lt_Some in Hrow.
    + rewrite list_lookup_insert_ne by done.
      destruct (Hlook j) as [Hin Hout]. split; [|tauto].
      intros [?|?]; [auto|done].
Qed.

Lemma subtract_from_rows_lookup rows v a a' :
  subtract_from_rows rows v a = Ok a' ->
  forall j,
    (j ∈ rows -> exists row, a !! j = Some row
                             /\ a' !! j = Some (zip_with F64.sub row v))
    /\ (j ∉ rows -> a' !! j = a !! j).
Proof.
  unfold subtract_from_rows. destruct (Np.take_rows rows a) as [sel|] eqn:E;
    simpl; [|done].
  intros [= <-] j. apply take_rows_ok in E.
  set (f := fun row : list float => zip_with F64.sub row v).
  assert ((zip rows (map f sel)).*1 = rows) as Hfst.
  { apply fst_zip. rewrite length_map. by rewrite (Forall2_length _ _ _ E). }
  destruct (store_rows_lookup a f (zip rows (map f sel))) as [_ Hlook].
  { clear Hfst. induction E as [|i row rows sel Hi _ IH]; simpl; constructor; [|done].
    by exists row. }
  destruct (Hlook j) as [Hin Hout]. rewrite Hfst in Hin, Hout.
  split; [|done]. intros Hj. rewrite (Hin Hj).
  apply list_elem_of_lookup in Hj as [n Hn].
  destruct (Forall2_lookup_l _ _ _ _ _ E Hn) as (row & _ & Hrow).
  exists row. unfold matrix in *. by rewrite Hrow.
Qed.

Lemma elem_of_channel_numbers self b n :
  n ∈ channel_numbers self b <->
  exists ch, ch ∈ eeg_channels self /\ Channel.reference ch = b
             /\ Channel.ch_number ch = n.
Proof.
  unfold channel_numbers. rewrite list_elem_of_fmap. split.
  - intros (ch & -> & [Hb Hin]%list_elem_of_filter). by exists ch.
  - intros (ch & Hin & Hb & <-). exists ch. split; [done|].
    by apply list_elem_of_filter.
Qed.

Lemma sum_axis0_column j rest : forall acc a col,
  acc !! j = Some a ->
  Forall2 (fun (row : list float) x => row !! j = Some x) rest col ->
  foldl (zip_with F64.add) acc rest !! j = Some (foldl F64.add a col).
Proof.
  induction rest as [|row rest IH]; intros acc a col Ha Hcol.
  - by inversion Hcol.
  - inversion Hcol as [|? x ? col' Hx Hrest]; subst. simpl.
    apply IH; [|done]. rewrite lookup_zip_with, Ha. simpl. by rewrite Hx.
Qed.

(** Entry [j] of the mean over the rows is the mean of their entries [j]. *)
Lemma mean_axis0_column n sel j col :
  sel <> [] ->
  Forall2 (fun (row : list float) x => row !! j = Some x) sel col ->
  Np.mean_axis0 n sel !! j = Some (Np.mean col).
Proof.
  intros Hne Hcol. unfold Np.mean_axis0, Np.mean.
  rewrite list_lookup_fmap, <- (Forall2_length _ _ _ Hcol).
  destruct Hcol as [|row a rest col Ha Hrest]; [done|]. simpl.
  by rewrite (sum_axis0_column j rest row a col).
Qed.

(** C7. Re-referencing in mode [mean] replaces every non-reference channel
    by the channel minus the mean row of the non-reference channels, in mode
    [ref] by the channel minus the mean row of the reference channels; each
    entry of a mean row is the mean of the entries of the rows at that
    sample. When no reference channel shares its number with a
    non-reference channel, the reference channels are left as they are. *)
Theorem rereference_subtracts_mean self eeg_data eeg_data' :
  rereference self eeg_data = Ok eeg_data' ->
  (forall is_reference,
     (is_reference = false /\ reference self = "mean")
     \/ (is_reference = true /\ reference self = "ref") ->
     exists sel,
       Np.take_rows (channel_numbers self is_reference) eeg_data = Ok sel
       /\ forall ch,
            ch ∈ eeg_channels self -> Channel.reference ch = false ->
            exists row,
              eeg_data !! Channel.ch_number ch = Some row
              /\ eeg_data' !! Channel.ch_number ch
                 = Some (zip_with F64.sub row
                           (Np.mean_axis0 (ncols eeg_data) sel)))
  /\ (forall n sel j col,
        sel <> [] ->
        Forall2 (fun (row : list float) x => row !! j = Some x) sel col ->
        Np.mean_axis0 n sel !! j = Some (Np.mean col))
  /\ ((forall r ch,
         r ∈ eeg_channels self -> ch ∈ eeg_channels self ->
         Channel.reference r = true -> Channel.reference ch = false ->
         Channel.ch_number r <> Channel.ch_number ch) ->
      forall r,
        r ∈ eeg_channels self -> Channel.reference r = true ->
        eeg_data' !! Channel.ch_number r = eeg_data !! Channel.ch_number r).
Proof.
  intros H. split; [|split; [apply mean_axis0_column|]].
  - intros b Hmode. unfold rereference in H.
    assert (exists sel, Np.take_rows (channel_numbers self b) eeg_data = Ok sel
              /\ subtract_from_rows (channel_numbers self false)
                   (Np.mean_axis0 (ncols eeg_data) sel) eeg_data = Ok eeg_data')
      as (sel & Hsel & Hsub).
    { destruct Hmode as [[-> Hm]|[-> Hm]]; rewrite Hm in H; simpl in H.
      - destruct (Np.take_rows _ _) as [sel|]; [|done]. by exists sel.
      - destruct (Np.take_rows _ _) as [sel|]; [|done]. by exists sel. }
    exists sel. split; [done|]. intros ch Hin Hch.
    apply (subtract_from_rows_lookup _ _ _ _ Hsub).
    apply elem_of_channel_numbers. by exists ch.
  - intros Hdisj r Hin Hr.
    assert (Channel.ch_number r ∉ channel_numbers self false) as Hout.
    { intros (ch & Hch & Hb & Hn)%elem_of_channel_numbers.
      by apply (Hdisj r ch). }
    unfold rereference in H.
    destruct (String.eqb _ "mean").
    { simpl in H. destruct (Np.take_rows _ _) as [sel|]; [|done]. simpl in H.
      by apply (subtract_from_rows_lookup _ _ _ _ H). }
    destruct (String.eqb _ "ref").
    { simpl in H. destruct (Np.take_rows _ _) as [sel|]; [|done]. simpl in H.
      by apply (subtract_from_rows_lookup _ _ _ _ H). }
    by injection H as <-.
Qed.

(** ** Head movement *)

(** With at least as many samples per metric window as there are motion
    rows, the head movement is taken over every sample of the pulled
    window. *)
Lemma head_movement_whole_window self gyro_data k :
  metric_window self (gyro_sampling_rate self) = Ok k ->
  (k = 0 \/ Z.of_nat (length gyro_data) <= k)%Z ->
  head_movement_of self gyro_data
  = Ok (Np.clip (F64.div (Np.mean (concat (map (map F64.abs) gyro_data)))
                         (F64.of_Z 50))
                F64.zero F64.one).
Proof.
  intros Hk Hlen. unfold head_movement_of. rewrite Hk. simpl.
  by rewrite slice_last_all.
Qed.

(** C8. For three motion channels with a jolt before the power-metric
    window (78 samples at 52 Hz) and rest inside it, the head movement of
    the tick is 0.1, while the mean over the trailing window is 0: the slice
    is taken over the rows of the window, not over its samples. *)
Theorem head_movement_ignores_window :
  metric_window headband_dashboard (gyro_sampling_rate headband_dashboard)
  = Ok 78%Z
  /\ head_movement_of headband_dashboard jolt_then_rest = Ok (F64.lit 1 10)
  /\ head_movement_trailing headband_dashboard jolt_then_rest = Ok F64.zero.
Proof. repeat split; vm_compute; reflexivity. Qed.

(** ** Instances of the statements above *)

Lemma zeros_dashboard_reachable : reachable headband_filter zeros_dashboard.
Proof.
  apply run_reachable.
  apply (reachable_set_parameters _ headband_dashboard 1 10
           DEFAULT_SCALE DEFAULT_OFFSET DEFAULT_HEAD_IMPACT).
  - apply headband_dashboard_reachable.
  - vm_compute. reflexivity.
Qed.

Lemma smoothing_weights_positive_witness :
  reachable headband_filter headband_dashboard
  /\ exists self',
       engage headband_dashboard F64.zero F64.zero []
         = Done self' (Some {| pub_bands := []; pub_power := power_metrics self' |})
       /\ 2 <= length (engagement_hist self')
       /\ 1 <= weight_total (length (engagement_hist self')).
Proof.
  split; [exact headband_dashboard_reachable|].
  destruct (smoothing_weights_positive headband_filter headband_dashboard
              F64.zero F64.zero [] headband_dashboard_reachable)
    as (self' & He & Hh & _ & Hlen & _ & Hw).
  exists self'. rewrite Hh. split; [exact He|split; [exact Hlen|exact Hw]].
Defined.

Lemma weighted_mean_formula_witness :
  exists self' out,
    engage headband_dashboard F64.zero F64.zero [] = Done self' out
    /\ engagement self' = weighted_mean (engagement_hist self').
Proof.
  destruct (engage headband_dashboard F64.zero F64.zero []) as [self' out|e s] eqn:E.
  - exists self', out. split; [reflexivity|].
    exact (proj1 (proj2 weighted_mean_formula) _ _ _ _ _ _ E).
  - exfalso. vm_compute in E. discriminate E.
Defined.

Lemma normalized_engagement_clipped_witness :
  F64.ltb F64.zero (F64.lit 5 100) = true
  /\ Np.clip F64.zero (F64.lit 5 100) F64.one = F64.lit 5 100
  /\ F64.ltb F64.one (F64.of_Z 7) = true
  /\ Np.clip (F64.of_Z 7) (F64.lit 5 100) F64.one = F64.one.
Proof.
  assert (F64.ltb F64.zero (F64.lit 5 100) = true) as H1
    by (vm_compute; reflexivity).
  assert (F64.ltb F64.one (F64.of_Z 7) = true) as H2
    by (vm_compute; reflexivity).
  split; [exact H1|]. split.
  - exact (proj1 (proj2 normalized_engagement_clipped) _ H1).
  - split; [exact H2|].
    exact (proj1 (proj2 (proj2 normalized_engagement_clipped)) _ H2).
Defined.

Lemma degenerate_statistics_unguarded_witness :
  reachable headband_filter zeros_dashboard
  /\ F64.is_zero (Np.std (calib_after zeros_dashboard F64.zero)) = true
  /\ F64.is_zero
       (F64.sub F64.zero (Np.mean (calib_after zeros_dashboard F64.zero))) = true
  /\ exists self',
       engage zeros_dashboard F64.zero F64.zero []
         = Done self' (Some {| pub_bands := []; pub_power := F64.nan |})
       /\ last (engagement_hist self') = Some F64.nan
       /\ power_metrics self' = F64.nan.
Proof.
  assert (F64.is_zero (Np.std (calib_after zeros_dashboard F64.zero)) = true)
    as H1 by (vm_compute; reflexivity).
  assert (F64.is_zero
            (F64.sub F64.zero (Np.mean (calib_after zeros_dashboard F64.zero)))
          = true) as H2 by (vm_compute; reflexivity).
  split; [exact zeros_dashboard_reachable|].
  split; [exact H1|]. split; [exact H2|].
  apply (proj2 degenerate_statistics_unguarded headband_filter zeros_dashboard
           F64.zero F64.zero [] zeros_dashboard_reachable).
  right. split; [exact H1|exact H2].
Defined.

Lemma raw_engagement_index_witness :
  measure even_filter headband_dashboard full_board
    = Ok (Some (F64.lit 1 21, F64.lit 1 50, [8; 8; 8; 8; 8]%Z))
  /\ exists bad_channels sums engagement_sum,
       tick_phases even_filter headband_dashboard full_board bad_channels sums
         engagement_sum (F64.lit 1 50) [8; 8; 8; 8; 8]%Z
       /\ (length bad_channels <> 4 ->
           F64.lit 1 21 = F64.div engagement_sum
                            (F64.of_Z (4 - Z.of_nat (length bad_channels))))
       /\ (length bad_channels = 4 -> F64.lit 1 21 = F64.zero).
Proof.
  assert (measure even_filter headband_dashboard full_board
          = Ok (Some (F64.lit 1 21, F64.lit 1 50, [8; 8; 8; 8; 8]%Z))) as H
    by (vm_compute; reflexivity).
  split; [exact H|]. exact (raw_engagement_index _ _ _ _ _ _ H).
Defined.

Lemma band_averages_published_witness :
  (forall psd lo hi v,
     get_band_power even_filter psd lo hi = Ok v -> F64.nonneg v = true)
  /\ exists self' p,
       _update even_filter headband_dashboard full_board = Done self' (Some p)
       /\ pub_bands p = [8; 8; 8; 8; 8]%Z
       /\ exists sums,
            length sums = 5
            /\ forall i s b,
                 sums !! i = Some s -> pub_bands p !! i = Some b ->
                 F64.floor
                   (F64.div s (F64.of_nat (length (eeg_channels headband_dashboard))))
                 = Some b.
Proof.
  assert (forall psd lo hi v,
            get_band_power even_filter psd lo hi = Ok v -> F64.nonneg v = true)
    as Hpow.
  { intros psd lo hi v H. injection H as <-. vm_compute. reflexivity. }
  split; [exact Hpow|].
  destruct (_update even_filter headband_dashboard full_board)
    as [self' [p|]|e s] eqn:E.
  - exists self', p.
    destruct (band_averages_published _ _ _ _ _ Hpow E)
      as (bad & sums & acc & head & _ & Hlen & _ & Hfloor).
    split; [reflexivity|]. split.
    + vm_compute in E. injection E as _ <-. reflexivity.
    + exists sums. split; [exact Hlen|].
      intros i s b Hs Hb. exact (proj2 (Hfloor i s b Hs Hb)).
  - exfalso. vm_compute in E. discriminate E.
  - exfalso. vm_compute in E. discriminate E.
Defined.

Lemma headband_channels_apart r ch :
  r ∈ eeg_channels headband_dashboard -> ch ∈ eeg_channels headband_dashboard ->
  Channel.reference r = true -> Channel.reference ch = false ->
  Channel.ch_number r <> Channel.ch_number ch.
Proof.
  intros Hr Hch. simpl in Hr, Hch.
  repeat (apply elem_of_cons in Hr as [->|Hr]); try (by apply elem_of_nil in Hr);
    repeat (apply elem_of_cons in Hch as [->|Hch]);
    try (by apply elem_of_nil in Hch); simpl; intros; congruence.
Qed.

Lemma rereference_subtracts_mean_witness :
  rereference headband_dashboard two_samples = Ok two_samples_referenced
  /\ (exists sel,
        Np.take_rows (channel_numbers headband_dashboard false) two_samples = Ok sel
        /\ forall ch,
             ch ∈ eeg_channels headband_dashboard -> Channel.reference ch = false ->
             exists row,
               two_samples !! Channel.ch_number ch = Some row
               /\ two_samples_referenced !! Channel.ch_number ch
                  = Some (zip_with F64.sub row
                            (Np.mean_axis0 (ncols two_samples) sel)))
  /\ forall r,
       r ∈ eeg_channels headband_dashboard -> Channel.reference r = true ->
       two_samples_referenced !! Channel.ch_number r
       = two_samples !! Channel.ch_number r.
Proof.
  assert (rereference headband_dashboard two_samples = Ok two_samples_referenced)
    as H by (vm_compute; reflexivity).
  destruct (rereference_subtracts_mean _ _ _ H) as (Hmean & _ & Href).
  split; [exact H|]. split.
  - apply (Hmean false). left. split; reflexivity.
  - exact (Href headband_channels_apart).
Defined.

(** ** The error monad on lists *)

Lemma mapM_ok_map {A B} (f : A -> result B) (g : A -> B) l :
  (forall x, x ∈ l -> f x = Ok (g x)) -> mapM f l = Ok (map g l).
Proof.
  induction l as [|a l IH]; intros H; simpl; [done|].
  rewrite (H a) by apply list_elem_of_here. simpl.
  rewrite IH; [done|]. intros x Hx. apply H. by apply list_elem_of_further.
Qed.

Lemma mapM_first_failure {A B} (f : A -> result B) (g : A -> B) l1 x l2 e :
  (forall y, y ∈ l1 -> f y = Ok (g y)) -> f x = Raise e ->
  mapM f (l1 ++ x :: l2) = Raise e.
Proof.
  induction l1 as [|a l1 IH]; intros H Hx; simpl.
  - by rewrite Hx.
  - rewrite (H a) by apply list_elem_of_here. simpl.
    rewrite IH; [done| |done]. intros y Hy. apply H. by apply list_elem_of_further.
Qed.

(** ** The plots *)

Lemma index_mod_pens i : index_mod _init_pens.1 i = Ok (pen_of i).
Proof.
  unfold index_mod, pen_of, Py.index. simpl length.
  change (9 =? 0) with false. cbv iota.
  destruct (_init_pens.1 !! (i mod 9)) eqn:E; [done|].
  apply lookup_ge_None in E. simpl in E.
  pose proof (Nat.mod_upper_bound i 9). lia.
Qed.

Lemma init_timeseries_ok self :
  length (gyro_channels self) <= 3 ->
  _init_timeseries self _init_pens.1
  = Ok (map eeg_plot (imap pair (map Channel.name (displayed self)))
        ++ map (gyro_plot (length (displayed self)))
               (seq 0 (length (gyro_channels self)))
        ++ [heart_plot (length (displayed self)) (length (gyro_channels self))]).
Proof.
  intros Hng. unfold _init_timeseries. fold (displayed self).
  rewrite length_map.
  rewrite (mapM_ok_map _ eeg_plot).
  2: { intros [i n] _. by rewrite index_mod_pens. }
  simpl.
  rewrite (mapM_ok_map _ (gyro_plot (length (displayed self)))).
  2: { intros i [_ Hi]%elem_of_seq. rewrite index_mod_pens.
       destruct i as [|[|[|i]]]; try done. simpl in Hi. lia. }
  done.
Qed.

Lemma init_timeseries_raises self :
  3 < length (gyro_channels self) ->
  _init_timeseries self _init_pens.1 = Raise IndexError.
Proof.
  intros Hng. unfold _init_timeseries. fold (displayed self).
  rewrite length_map.
  rewrite (mapM_ok_map _ eeg_plot).
  2: { intros [i n] _. by rewrite index_mod_pens. }
  simpl.
  destruct (length (gyro_channels self)) as [|[|[|[|ng]]]]; try lia.
  change (seq 0 (S (S (S (S ng))))) with ([0; 1; 2] ++ 3 :: seq 4 ng).
  by rewrite (mapM_first_failure _ (gyro_plot (length (displayed self)))
                _ _ _ IndexError);
    [|intros i Hi; rewrite index_mod_pens;
      repeat (apply elem_of_cons in Hi as [->|Hi]); try done;
      by apply elem_of_nil in Hi|].
Qed.

(** X3. With at most three motion channels [_init_timeseries] builds one
    curve per displayed EEG channel (in row [g], titled with the channel's
    name), one per motion channel and one for the heart rate, all in
    different rows of the grid: every index of [self.curves] that a tick
    uses (a displayed channel's number [g], [num_display_ch + count] and
    [num_display_ch + len(gyro_channels)]) is in range. The heart plot is put
    in the row after a row left free. With more than three motion channels
    the construction raises [IndexError], as there are three titles. *)
Theorem timeseries_curves self :
  let nd := length (displayed self) in
  let ng := length (gyro_channels self) in
  (ng <= 3 ->
   exists curves,
     _init_timeseries self _init_pens.1 = Ok curves
     /\ length curves = nd + ng + 1
     /\ NoDup (plot_row <$> curves)
     /\ (forall g ch, displayed self !! g = Some ch ->
           exists p, curves !! g = Some p
                     /\ plot_row p = g /\ plot_title p = Channel.name ch)
     /\ (forall count, count < ng ->
           exists p, curves !! (nd + count) = Some p
                     /\ plot_row p = nd + count)
     /\ exists p, curves !! (nd + ng) = Some p
                  /\ plot_row p = nd + ng + 1 /\ plot_title p = "heart")
  /\ (3 < ng -> _init_timeseries self _init_pens.1 = Raise IndexError).
Proof.
  intros nd ng. split; [|apply init_timeseries_raises].
  intros Hng. eexists. split; [by apply init_timeseries_ok|].
  fold nd ng.
  set (names := map Channel.name (displayed self)).
  assert (length (map eeg_plot (imap pair names)) = nd) as Hlen1.
  { rewrite length_map, length_imap. unfold names. by rewrite length_map. }
  assert (length (map (gyro_plot nd) (seq 0 ng)) = ng) as Hlen2.
  { by rewrite length_map, length_seq. }
  split; [|split; [|split; [|split]]].
  - rewrite !length_app, Hlen1, Hlen2. simpl. lia.
  - rewrite !fmap_app. simpl.
    assert (plot_row <$> map eeg_plot (imap pair names) = seq 0 nd) as ->.
    { apply list_eq. intros i. rewrite !list_lookup_fmap, list_lookup_imap.
      unfold names. rewrite list_lookup_fmap.
      destruct (displayed self !! i) as [ch|] eqn:E; simpl.
      - symmetry. apply lookup_seq. split; [done|].
        by apply lookup_lt_Some in E.
      - symmetry. apply lookup_ge_None. rewrite length_seq.
        by apply lookup_ge_None in E. }
    assert (plot_row <$> map (gyro_plot nd) (seq 0 ng) = seq nd ng) as ->.
    { apply list_eq. intros i. rewrite !list_lookup_fmap.
      destruct (decide (i < ng)) as [Hi|Hi].
      - rewrite (proj2 (lookup_seq 0 ng i i)) by done. simpl.
        symmetry. apply lookup_seq. split; [lia|done].
      - assert (seq 0 ng !! i = None) as ->.
        { apply lookup_ge_None. rewrite length_seq. lia. }
        simpl. symmetry. apply lookup_ge_None. rewrite length_seq. lia. }
    rewrite app_assoc, <- seq_app.
    apply NoDup_app. split; [apply NoDup_seq|]. split; [|apply NoDup_singleton].
    intros x [_ Hx]%elem_of_seq Hin%list_elem_of_singleton. lia.
  - intros g ch Hg. exists (eeg_plot (g, Channel.name ch)).
    split; [|done]. rewrite lookup_app_l.
    + rewrite list_lookup_fmap, list_lookup_imap. unfold names.
      by rewrite list_lookup_fmap, Hg.
    + rewrite Hlen1. by apply lookup_lt_Some in Hg.
  - intros c Hc. exists (gyro_plot nd c). split; [|simpl; lia].
    rewrite lookup_app_r by lia. rewrite Hlen1.
    replace (nd + c - nd) with c by lia.
    rewrite lookup_app_l by lia. rewrite list_lookup_fmap.
    by rewrite (proj2 (lookup_seq 0 ng c c)).
  - exists (heart_plot nd ng). split; [|simpl; split; [lia|done]].
    rewrite lookup_app_r by lia. rewrite Hlen1.
    replace (nd + ng - nd) with ng by lia.
    rewrite lookup_app_r by lia. rewrite Hlen2.
    by replace (ng - ng) with 0 by lia.
Qed.

(** X4. [_init_psd] never raises: it builds one spectrum curve per EEG
    channel, the [i]-th with the pen [i mod 9], which are at least as many
    as the displayed channels whose number [graph_number] indexes them in a
    tick. *)
Theorem psd_curves self :
  exists curves,
    _init_psd self _init_pens.1 = Ok curves
    /\ length curves = length (eeg_channels self)
    /\ (forall i, i < length (eeg_channels self) ->
          curves !! i = _init_pens.1 !! (i mod 9))
    /\ forall g ch, displayed self !! g = Some ch -> is_Some (curves !! g).
Proof.
  exists (map pen_of (seq 0 (length (eeg_channels self)))).
  assert (forall i, i < length (eeg_channels self) ->
            map pen_of (seq 0 (length (eeg_channels self))) !! i
            = _init_pens.1 !! (i mod 9)) as Hlook.
  { intros i Hi. rewrite list_lookup_fmap.
    rewrite (proj2 (lookup_seq 0 _ i i)) by done. simpl. unfold pen_of.
    destruct (_init_pens.1 !! (i mod 9)) eqn:E; [done|].
    apply lookup_ge_None in E. simpl in E.
    pose proof (Nat.mod_upper_bound i 9). lia. }
  split; [|split; [|split]].
  - unfold _init_psd. apply mapM_ok_map. intros i _. apply index_mod_pens.
  - by rewrite length_map, length_seq.
  - done.
  - intros g ch Hg. apply lookup_lt_is_Some. rewrite length_map, length_seq.
    apply lookup_lt_Some in Hg.
    pose proof (length_filter (fun ch => Channel.display ch = true)
                  (eeg_channels self)). unfold displayed in Hg. lia.
Qed.

(** ** Ticks and the dashboard's attributes *)

(** X5. A tick of a dashboard that was constructed, configured and ticked
    in any order either publishes, or leaves every attribute as it was
    (when it is given up and when it raises). *)
Theorem tick_publishes_or_keeps DF self board :
  reachable DF self ->
  (exists self' p, _update DF self board = Done self' (Some p))
  \/ state_of (_update DF self board) = self.
Proof.
  intros Hr. unfold _update.
  destruct (measure DF self board) as [[[[idx head] bands]|]|e]; simpl;
    [|by right..].
  destruct (engage self idx head bands) as [self' out|e self'] eqn:E.
  - left. apply engage_done in E as [_ ->]. by eexists _, _.
  - apply engage_raised in E as [E _].
    pose proof (reachable_hist DF self Hr) as Hlen. rewrite E in Hlen.
    simpl in Hlen. lia.
Qed.

(** X6. Over any run of ticks, from any state, neither history gets
    shorter, and each grows by at most one entry per tick. *)
Theorem histories_never_shrink DF boards : forall self,
  let self' := state_of (run DF self boards) in
  (length (engagement_calib self) <= length (engagement_calib self')
   <= length (engagement_calib self) + length boards)
  /\ (length (engagement_hist self) <= length (engagement_hist self')
      <= length (engagement_hist self) + length boards).
Proof.
  assert (forall s b,
    let s' := state_of (_update DF s b) in
    (length (engagement_calib s) <= length (engagement_calib s')
       <= length (engagement_calib s) + 1)
    /\ (length (engagement_hist s) <= length (engagement_hist s')
        <= length (engagement_hist s) + 1)) as Hstep.
  { intros s b. simpl. split.
    - destruct (update_calib_length DF s b) as [->| ->]; [lia|].
      rewrite calib_after_length. destruct (_ <? _)%Z; lia.
    - unfold _update.
      destruct (measure DF s b) as [[[[idx head] bands]|]|e]; simpl; try lia.
      unfold engage. destruct (Z.ltb_spec (hist_length s)
        (Z.of_nat (length (engagement_hist s)))) as [Hlt|Hge].
      + destruct (engagement_hist s) as [|x r]; simpl; [lia|].
        rewrite length_app. simpl. lia.
      + simpl. rewrite length_app. simpl. lia. }
  induction boards as [|board rest IH]; intros self; simpl; [lia|].
  specialize (Hstep self board). simpl in Hstep.
  destruct (_update DF self board) as [s out|e s]; simpl in *; [|lia].
  destruct rest as [|b r]; simpl in *; [lia|].
  specialize (IH s). simpl in IH. lia.
Qed.

(** X7. A history that holds more entries than its capacity (after
    [set_parameters] lowered it) is never cut down to it: over any run of
    ticks its length stays exactly what it was. *)
Theorem lowered_capacity_not_enforced DF boards : forall self,
  let self' := state_of (run DF self boards) in
  ((calib_length self < Z.of_nat (length (engagement_calib self)))%Z ->
   length (engagement_calib self') = length (engagement_calib self))
  /\ ((hist_length self < Z.of_nat (length (engagement_hist self)))%Z ->
      length (engagement_hist self') = length (engagement_hist self)).
Proof.
  intros self. simpl. split; intros Hover.
  - apply (run_invariant (fun s =>
      calib_length s = calib_length self
      /\ length (engagement_calib s) = length (engagement_calib self)));
      [done|].
    intros s b [Hc Hl]. destruct (update_keeps_lengths DF s b) as [-> _].
    split; [done|].
    destruct (update_calib_length DF s b) as [->| ->]; [done|].
    rewrite calib_after_length.
    destruct (Z.ltb_spec (calib_length s)
      (Z.of_nat (S (length (engagement_calib s))))); lia.
  - apply (run_invariant (fun s =>
      hist_length s = hist_length self
      /\ length (engagement_hist s) = length (engagement_hist self)));
      [done|].
    intros s b [Hc Hl]. destruct (update_keeps_lengths DF s b) as [_ ->].
    split; [done|]. unfold _update.
    destruct (measure DF s b) as [[[[idx head] bands]|]|e]; simpl; try done.
    unfold engage.
    destruct (Z.ltb_spec (hist_length s)
      (Z.of_nat (length (engagement_hist s)))) as [Hlt|Hge]; [|lia].
    destruct (engagement_hist s) as [|x r]; simpl in *; [done|].
    rewrite length_app. simpl. lia.
Qed.


(** ** The bad channels *)

Lemma bad_channel_step_cases self eeg acc ch acc' :
  bad_channel_step self eeg acc ch = Ok acc' ->
  acc' = acc \/ (acc' = acc ++ [ch] /\ Channel.reference ch = false).
Proof.
  unfold bad_channel_step. destruct (Channel.reference ch) eqn:E; simpl.
  - intros [= <-]. by left.
  - intros H. bind_cases H. destruct (F64.ltb _ _); injection H as <-;
      [by right|by left].
Qed.

Lemma bad_channels_loop self eeg items : forall acc acc',
  Py.for_loop (bad_channel_step self eeg) acc items = Ok acc' ->
  exists extra,
    acc' = acc ++ extra
    /\ extra `sublist_of` filter (fun ch => Channel.reference ch = false) items.
Proof.
  induction items as [|ch items IH]; intros acc acc'; simpl.
  - intros [= <-]. exists []. by rewrite app_nil_r.
  - destruct (bad_channel_step self eeg acc ch) as [acc1|] eqn:E; simpl; [|done].
    intros (extra & -> & Hsub)%IH.
    apply bad_channel_step_cases in E as [->|[-> Href]].
    + exists extra. split; [done|]. rewrite filter_cons.
      destruct (decide _); [by apply sublist_cons|done].
    + exists (ch :: extra). split; [by rewrite <- app_assoc|].
      rewrite filter_cons. destruct (decide _); [|done]. by apply sublist_skip.
Qed.

Lemma detect_bad_sublist self eeg_data bad_channels :
  detect_bad_channels self eeg_data = Ok bad_channels ->
  bad_channels
    `sublist_of` filter (fun ch => Channel.reference ch = false)
                        (eeg_channels self).
Proof. by intros (extra & -> & Hsub)%bad_channels_loop. Qed.

Lemma detect_bad_signal self eeg_data bad_channels :
  detect_bad_channels self eeg_data = Ok bad_channels ->
  Forall (fun ch => Channel.reference ch = false) bad_channels.
Proof.
  intros Hsub%detect_bad_sublist. apply Forall_forall. intros ch Hch.
  assert (ch ∈ filter (fun ch => Channel.reference ch = false)
                      (eeg_channels self)) as Hin
    by (by apply (elem_of_sublist bad_channels)).
  by apply list_elem_of_filter in Hin as [? _].
Qed.

(** X12. Bad channel detection returns a sub-sequence of the dashboard's
    channels that are not reference channels: only such channels, in the
    order of [self.eeg_channels], none more often than it is listed. *)
Theorem bad_channels_are_signal_channels self eeg_data bad_channels :
  detect_bad_channels self eeg_data = Ok bad_channels ->
  bad_channels
    `sublist_of` filter (fun ch => Channel.reference ch = false)
                        (eeg_channels self)
  /\ Forall (fun ch => Channel.reference ch = false) bad_channels
  /\ length bad_channels
     <= length (filter (fun ch => Channel.reference ch = false)
                       (eeg_channels self)).
Proof.
  intros H. split; [by apply (detect_bad_sublist self eeg_data)|].
  split; [by apply (detect_bad_signal self eeg_data)|].
  by apply sublist_length, (detect_bad_sublist self eeg_data).
Qed.

(** ** The loop over the displayed channels *)

Lemma for_loop_each {A B} (body : A -> B -> result A) items : forall acc acc' x,
  Py.for_loop body acc items = Ok acc' -> x ∈ items ->
  exists a a', body a x = Ok a'.
Proof.
  induction items as [|y items IH]; intros acc acc' x; simpl.
  - intros _ Hx. by apply elem_of_nil in Hx.
  - destruct (body acc y) as [a|] eqn:E; simpl; [|done].
    intros H [->|Hx]%elem_of_cons; [by exists acc, a|]. by apply (IH a acc').
Qed.

Lemma eeg_step_pen DF self bad acc g ch acc' :
  eeg_step DF self bad acc (g, ch) = Ok acc' ->
  channel_in ch bad = true \/ g < 4.
Proof.
  destruct acc as [[eeg sums] idx]. unfold eeg_step. intros H. simpl in H.
  destruct (Py.index eeg (Channel.ch_number ch)) as [r0|]; simpl in H; [|done].
  destruct (detrend DF r0) as [r1|]; simpl in H; [|done].
  destruct (perform_bandpass DF r1 _ _ _ _) as [r2|]; simpl in H; [|done].
  destruct (perform_bandstop DF r2 _ _ _ _) as [r3|]; simpl in H; [|done].
  destruct (channel_in ch bad); [by left|]. right.
  unfold Py.index in H.
  destruct (colors !! g) eqn:E; simpl in H; [|done].
  apply lookup_lt_Some in E. simpl in E. lia.
Qed.

Lemma channel_in_reference ch bad :
  channel_in ch bad = true ->
  exists ch', ch' ∈ bad /\ Channel.reference ch' = Channel.reference ch.
Proof.
  unfold channel_in. intros (ch' & Hin & Heq)%existsb_exists.
  exists ch'. split; [by apply list_elem_of_In|].
  unfold Channel.eqb in Heq. rewrite !andb_true_iff in Heq.
  destruct Heq as [[[_ _] Hr] _]. symmetry. by apply Bool.eqb_prop.
Qed.

(** X16. There are four curve colours, and a reference channel is never
    detected as bad: when the fifth or a later displayed channel is a
    reference channel (as with four EEG channels and [display_ref]), no tick
    publishes. *)
Theorem fifth_displayed_reference_never_publishes DF self board g ch :
  displayed self !! g = Some ch -> 4 <= g -> Channel.reference ch = true ->
  published_of (_update DF self board) = None.
Proof.
  intros Hg H4 Href.
  destruct (_update DF self board) as [self' [p|]|e self'] eqn:E; [|done..].
  exfalso. apply update_done in E as (idx & head & bands & Hm & _).
  apply measure_some in Hm as (bad & sums & acc & Hphases & _).
  destruct Hphases as (eeg & gyro & ppg & eeg' & eeg'' & _ & _ & Hbad & _ & _ & _
                       & Hloop & _).
  unfold eeg_processing in Hloop.
  fold (displayed self) in Hloop.
  destruct (for_loop_each _ _ _ _ (g, ch) Hloop) as (a & a' & Hstep).
  { by apply (elem_of_lookup_imap_2 pair _ _ g). }
  apply eeg_step_pen in Hstep as [Hin|Hlt]; [|lia].
  apply channel_in_reference in Hin as (ch' & Hin & Hr).
  apply detect_bad_signal in Hbad as Hall.
  rewrite Forall_forall in Hall. specialize (Hall ch' Hin). congruence.
Qed.

(** ** The shape of the re-referenced window *)

Lemma subtract_from_rows_length rows v a a' :
  subtract_from_rows rows v a = Ok a' -> length a' = length a.
Proof.
  unfold subtract_from_rows. destruct (Np.take_rows rows a) as [sel|] eqn:E;
    simpl; [|done].
  intros [= <-]. apply take_rows_ok in E.
  set (f := fun row : list float => zip_with F64.sub row v).
  apply (store_rows_lookup a f).
  induction E as [|i row rows sel Hi _ IH]; simpl; constructor; [|done].
  by exists row.
Qed.

Lemma sum_axis0_length n sel :
  Forall (fun row : list float => length row = n) sel ->
  length (Np.sum_axis0 n sel) = n.
Proof.
  unfold Np.sum_axis0. destruct sel as [|r rest]; [by rewrite length_replicate|].
  intros [Hr Hrest]%Forall_cons. revert r Hr.
  induction Hrest as [|row rest Hrow _ IH]; intros r Hr; simpl; [done|].
  apply IH. rewrite length_zip_with. lia.
Qed.

Lemma rereference_lookup self eeg_data eeg_data' :
  rereference self eeg_data = Ok eeg_data' ->
  length eeg_data' = length eeg_data
  /\ forall j,
       eeg_data' !! j = eeg_data !! j
       \/ exists sel row,
            Forall (fun r => exists i, eeg_data !! i = Some r) sel
            /\ eeg_data !! j = Some row
            /\ eeg_data' !! j
               = Some (zip_with F64.sub row
                         (Np.mean_axis0 (ncols eeg_data) sel)).
Proof.
  unfold rereference. intros H.
  assert (eeg_data' = eeg_data
          \/ exists rows sel,
               Np.take_rows rows eeg_data = Ok sel
               /\ subtract_from_rows (channel_numbers self false)
                    (Np.mean_axis0 (ncols eeg_data) sel) eeg_data
                  = Ok eeg_data') as [->|(rows & sel & Hsel & Hsub)].
  { destruct (String.eqb _ "mean").
    { simpl in H. destruct (Np.take_rows _ _) as [sel|] eqn:E; [|done].
      right. by eexists _, sel. }
    destruct (String.eqb _ "ref").
    { simpl in H. destruct (Np.take_rows _ _) as [sel|] eqn:E; [|done].
      right. by eexists _, sel. }
    left. by injection H as <-. }
  - split; [done|]. intros j. by left.
  - split; [by apply (subtract_from_rows_length _ _ _ _ Hsub)|].
    intros j.
    destruct (decide (j ∈ channel_numbers self false)) as [Hj|Hj].
    + right. destruct (proj1 (subtract_from_rows_lookup _ _ _ _ Hsub j) Hj)
        as (row & Hrow & Hrow').
      exists sel, row. split; [|done].
      apply take_rows_ok in Hsel. clear -Hsel.
      induction Hsel as [|i r rows sel Hi _ IH]; constructor; [by exists i|done].
    + left. by apply (subtract_from_rows_lookup _ _ _ _ Hsub).
Qed.

(** X13. Re-referencing keeps the number of rows of the EEG window, leaves
    every row that is not a non-reference channel's as it is, and keeps a
    rectangular window rectangular. *)
Theorem rereference_keeps_shape self eeg_data eeg_data' :
  rereference self eeg_data = Ok eeg_data' ->
  length eeg_data' = length eeg_data
  /\ (forall j, j ∉ channel_numbers self false ->
        eeg_data' !! j = eeg_data !! j)
  /\ (Forall (fun row => length row = ncols eeg_data) eeg_data ->
      Forall (fun row => length row = ncols eeg_data) eeg_data').
Proof.
  intros H. destruct (rereference_lookup _ _ _ H) as [Hlen Hlook].
  split; [done|]. split.
  - intros j Hj. unfold rereference in H.
    destruct (String.eqb _ "mean").
    { simpl in H. destruct (Np.take_rows _ _) as [sel|]; [|done]. simpl in H.
      by apply (subtract_from_rows_lookup _ _ _ _ H). }
    destruct (String.eqb _ "ref").
    { simpl in H. destruct (Np.take_rows _ _) as [sel|]; [|done]. simpl in H.
      by apply (subtract_from_rows_lookup _ _ _ _ H). }
    by injection H as <-.
  - intros Hrect. apply Forall_lookup. intros j row' Hj.
    rewrite Forall_lookup in Hrect. unfold matrix in *.
    destruct (Hlook j) as [Heq|(sel & row & Hsel & Hrow & Hrow')].
    + rewrite Heq in Hj. by apply (Hrect j).
    + rewrite Hrow' in Hj. injection Hj as <-.
      rewrite length_zip_with. unfold Np.mean_axis0.
      rewrite length_map, sum_axis0_length.
      * rewrite (Hrect j row Hrow). lia.
      * eapply Forall_impl; [exact Hsel|]. intros r [i Hi]. by apply (Hrect i).
Qed.

Lemma sub_nan_r x : F64.sub x F64.nan = F64.nan.
Proof. by destruct x. Qed.

Lemma zip_sub_nan row : forall n,
  zip_with F64.sub row (replicate n F64.nan)
  = replicate (length row `min` n) F64.nan.
Proof.
  induction row as [|x row IH]; intros [|n]; simpl; try done.
  by rewrite sub_nan_r, IH.
Qed.

Lemma mean_axis0_empty n : Np.mean_axis0 n [] = replicate n F64.nan.
Proof.
  unfold Np.mean_axis0. simpl. induction n as [|n IH]; simpl; [done|].
  by rewrite IH.
Qed.

(** X14. In mode [ref] on a dashboard without reference channels the mean
    of no rows is NaN: re-referencing replaces every sample of every
    channel by NaN. *)
Theorem ref_mode_without_reference self eeg_data eeg_data' :
  reference self = "ref" ->
  Forall (fun ch => Channel.reference ch = false) (eeg_channels self) ->
  rereference self eeg_data = Ok eeg_data' ->
  forall ch, ch ∈ eeg_channels self ->
    exists row,
      eeg_data !! Channel.ch_number ch = Some row
      /\ eeg_data' !! Channel.ch_number ch
         = Some (replicate (length row `min` ncols eeg_data) F64.nan).
Proof.
  intros Hmode Hall H.
  assert (channel_numbers self true = []) as Hnone.
  { unfold channel_numbers. clear H.
    induction Hall as [|c cs Hc _ IH]; [done|].
    rewrite filter_cons. destruct (decide _) as [Hd|Hd]; [congruence|done]. }
  intros ch Hch.
  unfold rereference in H. rewrite Hmode, Hnone in H. simpl in H.
  rewrite mean_axis0_empty in H.
  destruct (proj1 (subtract_from_rows_lookup _ _ _ _ H (Channel.ch_number ch)))
    as (row & Hrow & Hrow').
  { apply elem_of_channel_numbers. exists ch. split; [done|]. split; [|done].
    rewrite Forall_forall in Hall. by apply Hall. }
  exists row. split; [done|]. by rewrite Hrow', zip_sub_nan.
Qed.

(** ** Windows with too few samples *)

Lemma slice_last_length {A} k (a : list A) :
  length (Py.slice_last k a) <= length a.
Proof.
  unfold Py.slice_last. destruct (_ =? _)%Z; [done|].
  destruct (_ <? _)%Z; rewrite length_drop; lia.
Qed.

Lemma eeg_step_short DF self bad a entry acc' :
  keeps_length DF -> short_rows self a ->
  eeg_step DF self bad (a, replicate 5 F64.zero, F64.zero) entry = Ok acc' ->
  exists a', acc' = (a', replicate 5 F64.zero, F64.zero) /\ short_rows self a'.
Proof.
  intros (Hd & Hp & Hs) Ha. destruct entry as [g ch]. unfold eeg_step.
  intros H. simpl in H.
  destruct (Py.index a (Channel.ch_number ch)) as [r0|] eqn:E0; simpl in H; [|done].
  destruct (detrend DF r0) as [r1|] eqn:E1; simpl in H; [|done].
  destruct (perform_bandpass DF r1 _ _ _ _) as [r2|] eqn:E2; simpl in H; [|done].
  destruct (perform_bandstop DF r2 _ _ _ _) as [r3|] eqn:E3; simpl in H; [|done].
  destruct (if channel_in ch bad then _ else _) as [pen|]; simpl in H; [|done].
  destruct (metric_window self _) as [k|]; simpl in H; [|done].
  apply index_ok in E0. apply Hd in E1. apply Hp in E2. apply Hs in E3.
  assert ((Z.of_nat (length r3) < psd_size self)%Z) as Hshort.
  { unfold short_rows in Ha. rewrite Forall_lookup in Ha.
    specialize (Ha _ _ E0). simpl in Ha. lia. }
  pose proof (slice_last_length k r3) as Hk.
  destruct (Z.ltb_spec (Z.of_nat (length (Py.slice_last k r3))) (psd_size self));
    [|lia].
  injection H as <-. eexists. split; [done|].
  unfold short_rows, matrix in *. by apply Forall_insert.
Qed.

Lemma eeg_processing_short DF self bad a a' sums idx :
  keeps_length DF -> short_rows self a ->
  eeg_processing DF self bad a = Ok (a', sums, idx) ->
  sums = replicate 5 F64.zero /\ idx = F64.zero.
Proof.
  intros Hk Ha H. unfold eeg_processing in H.
  apply (for_loop_invariant (fun acc =>
    exists m, acc = (m, replicate 5 F64.zero, F64.zero) /\ short_rows self m))
    in H.
  - destruct H as (m & [= -> -> ->] & _). done.
  - by exists a.
  - intros acc x acc' (m & -> & Hm). by apply eeg_step_short.
Qed.

Lemma rereference_short self a a' :
  rereference self a = Ok a' -> short_rows self a -> short_rows self a'.
Proof.
  intros H Ha. destruct (rereference_lookup _ _ _ H) as [_ Hlook].
  unfold short_rows in *. apply Forall_lookup. intros j row' Hj.
  rewrite Forall_lookup in Ha. unfold matrix in *.
  destruct (Hlook j) as [Heq|(sel & row & _ & Hrow & Hrow')].
  - rewrite Heq in Hj. by apply (Ha j).
  - rewrite Hrow' in Hj. injection Hj as <-. specialize (Ha j row Hrow).
    simpl in Ha. rewrite length_zip_with. lia.
Qed.

(** X17. With filters that keep the length of a row: when every row of the
    EEG window is shorter than [psd_size], no channel gets to the spectrum,
    so the band sums and the engagement sum of the tick are all zero. *)
Theorem short_windows_contribute_nothing DF self board idx head bands :
  keeps_length DF ->
  (forall eeg_data gyro_data ppg_data,
     pull_windows self board = Ok (eeg_data, gyro_data, ppg_data) ->
     short_rows self eeg_data) ->
  measure DF self board = Ok (Some (idx, head, bands)) ->
  exists bad_channels,
    tick_phases DF self board bad_channels (replicate 5 F64.zero) F64.zero
      head bands
    /\ idx = raw_engagement bad_channels F64.zero.
Proof.
  intros Hk Hshort (bad & sums & acc & Hphases & ->)%measure_some.
  exists bad.
  assert (sums = replicate 5 F64.zero /\ acc = F64.zero) as [-> ->]; [|done].
  destruct Hphases as (eeg & gyro & ppg & eeg' & eeg'' & _ & Hpull & _ & Href & _
                       & _ & Hloop & _).
  apply (eeg_processing_short _ _ _ _ _ _ _ Hk) in Hloop; [done|].
  apply (rereference_short _ _ _ Href). by apply (Hshort eeg gyro ppg).
Qed.

(** ** The range of the head movement *)

Lemma clip_unit x :
  F64.is_nan x = false ->
  F64.leb F64.zero (Np.clip x F64.zero F64.one) = true
  /\ F64.leb (Np.clip x F64.zero F64.one) F64.one = true.
Proof.
  intros H. unfold Np.clip, Np.maximum, Np.minimum. rewrite H, orb_false_r.
  destruct (F64.leb F64.zero x) eqn:E1.
  - rewrite H, orb_false_r. destruct (F64.leb x F64.one) eqn:E2.
    + split; assumption.
    + split; vm_compute; reflexivity.
  - split; vm_compute; reflexivity.
Qed.

(** X15. The head movement is NaN or lies between 0 and 1. *)
Theorem head_movement_in_unit_interval self gyro_data head :
  head_movement_of self gyro_data = Ok head ->
  F64.is_nan head = true
  \/ (F64.leb F64.zero head = true /\ F64.leb head F64.one = true).
Proof.
  unfold head_movement_of.
  destruct (metric_window self _) as [k|]; simpl; [|done].
  intros [= <-]. set (x := F64.div _ _).
  destruct (F64.is_nan x) eqn:E.
  - left. by destruct x.
  - right. by apply clip_unit.
Qed.

(** ** The weight of the oldest entry *)

Lemma weighted_nan_stays hist : forall s c,
  (foldl weighted_step (F64.nan, s, c) hist).1.1 = F64.nan.
Proof.
  induction hist as [|x hist IH]; intros s c; simpl; [done|]. apply IH.
Qed.

(** X19. The oldest entry of the smoothing history has weight zero: the
    weighted mean is the same for any two finite values in its place. A NaN
    or an infinity there still turns the weighted mean into NaN. *)
Theorem oldest_entry_has_no_weight x hist :
  (F64.is_finite x = true ->
   forall y, F64.is_finite y = true ->
     weighted_mean (x :: hist) = weighted_mean (y :: hist))
  /\ (F64.is_finite x = false -> weighted_mean (x :: hist) = F64.nan).
Proof.
  assert (forall z, F64.is_finite z = true ->
            F64.add F64.zero (F64.mul z (F64.of_nat 0)) = F64.zero) as Hzero.
  { intros z Hz. change (F64.of_nat 0) with F64.zero.
    destruct z as [[]| | |[] m e]; done. }
  split.
  - intros Hx y Hy. unfold weighted_mean, weighted_sums. simpl.
    by rewrite (Hzero x Hx), (Hzero y Hy).
  - intros Hx. unfold weighted_mean, weighted_sums. simpl.
    assert (F64.add F64.zero (F64.mul x (F64.of_nat 0)) = F64.nan) as ->.
    { change (F64.of_nat 0) with F64.zero. destruct x as [| [] | |]; done. }
    pose proof (weighted_nan_stays hist (0 + 0) 1) as Hnan.
    destruct (foldl weighted_step _ hist) as [[w s] c]. simpl in *.
    by rewrite Hnan.
Qed.

(** ** Configuration and construction *)

Lemma capacity_exact_hour :
  forallb capacity_exact (seqZ 0 3601) = true.
Proof. vm_compute. reflexivity. Qed.

Lemma capacity_of_seconds seconds :
  (0 <= seconds <= 3600)%Z ->
  int_truediv (seconds * 1000) 100 ≫= Py.int = Ok (10 * seconds)%Z.
Proof.
  intros H. pose proof capacity_exact_hour as Hall.
  rewrite forallb_forall in Hall. specialize (Hall seconds).
  unfold capacity_exact in Hall.
  destruct (int_truediv (seconds * 1000) 100 ≫= Py.int) as [n|].
  - f_equal. apply Z.eqb_eq, Hall, list_elem_of_In, elem_of_seqZ. lia.
  - discriminate Hall. apply list_elem_of_In, elem_of_seqZ. lia.
Qed.

(** X2. With the update speed of 100 ms that [__init__] sets,
    [set_parameters] turns lengths of 0 to 3600 seconds into capacities of
    ten entries per second, stores scale, offset and head impact as given,
    and leaves both histories as they are. *)
Theorem set_parameters_capacities self c p scale offset impact :
  update_speed_ms self = 100%Z ->
  (0 <= c <= 3600)%Z -> (0 <= p <= 3600)%Z ->
  exists self',
    set_parameters self c p scale offset impact = Ok self'
    /\ calib_length self' = (10 * c)%Z /\ hist_length self' = (10 * p)%Z
    /\ brain_scale self' = scale /\ brain_center self' = offset
    /\ head_impact self' = impact
    /\ engagement_calib self' = engagement_calib self
    /\ engagement_hist self' = engagement_hist self.
Proof.
  intros Hspeed Hc Hp. unfold set_parameters. rewrite Hspeed.
  rewrite (capacity_of_seconds c Hc), (capacity_of_seconds p Hp). simpl.
  eexists. split; [reflexivity|]. simpl. repeat split.
Qed.

Lemma default_capacities :
  int_truediv (DEFAULT_CALIB_LENGTH * 1000) 100 ≫= Py.int = Ok 6000%Z
  /\ int_truediv (DEFAULT_POWER_LENGTH * 1000) 100 ≫= Py.int = Ok 100%Z.
Proof. split; vm_compute; reflexivity. Qed.

(** X1. [__init__] builds the channel list from the board description: the
    [i]-th EEG channel number with the [i]-th name, not a reference and
    displayed, followed by one channel named Fpz per other channel, a
    reference that is displayed as [display_ref] says. The capacities are
    6000 and 100 entries and both histories start as [[0; 1]]. With fewer
    names than EEG channel numbers the construction raises [IndexError]. *)
Theorem init_builds_channels DF info reference display_ref :
  let numbers := descr_eeg_channels info in
  let names := descr_eeg_names info in
  let others := descr_other_channels info in
  (length numbers <= length names ->
   exists self,
     __init__ DF info reference display_ref = Ok self
     /\ length (eeg_channels self) = length numbers + length others
     /\ (forall i n, numbers !! i = Some n ->
           exists name, names !! i = Some name
                        /\ eeg_channels self !! i
                           = Some (Channel.Build_t n name false true))
     /\ (forall j n, others !! j = Some n ->
           eeg_channels self !! (length numbers + j)
           = Some (Channel.Build_t n "Fpz" true display_ref))
     /\ calib_length self = 6000%Z /\ hist_length self = 100%Z
     /\ engagement_calib self = [F64.zero; F64.one]
     /\ engagement_hist self = [F64.zero; F64.one])
  /\ (length names < length numbers ->
      __init__ DF info reference display_ref = Raise IndexError).
Proof.
  intros numbers names others. destruct default_capacities as [Hc Hh]. split.
  - intros Hlen. unfold __init__. fold numbers names others.
    rewrite (mapM_ok_map _ (signal_channel names)).
    2: { intros [i' n'] (i & n & [= -> ->] & Hj)%elem_of_lookup_imap.
         unfold signal_channel. simpl.
         destruct (names !! i) as [name|] eqn:E.
         - unfold Py.index. fold names. by rewrite E.
         - apply lookup_ge_None in E. apply lookup_lt_Some in Hj. lia. }
    simpl. unfold set_parameters. simpl update_speed_ms. rewrite Hc, Hh. simpl.
    eexists. split; [reflexivity|]. simpl.
    assert (length (map (signal_channel names) (imap pair numbers))
            = length numbers) as Hl by (by rewrite length_map, length_imap).
    repeat split.
    + by rewrite length_app, Hl, length_map.
    + intros i n Hi.
      destruct (names !! i) as [name|] eqn:E.
      * exists name. split; [done|]. rewrite lookup_app_l.
        -- rewrite list_lookup_fmap, list_lookup_imap, Hi. simpl.
           unfold signal_channel. simpl. by rewrite E.
        -- rewrite Hl. by apply lookup_lt_Some in Hi.
      * apply lookup_ge_None in E. apply lookup_lt_Some in Hi. lia.
    + intros j n Hj. rewrite lookup_app_r by lia. rewrite Hl.
      replace (length numbers + j - length numbers) with j by lia.
      by rewrite list_lookup_fmap, Hj.
  - intros Hlen. unfold __init__. fold numbers names others.
    assert (exists l1 n l2, numbers = l1 ++ n :: l2 /\ length l1 = length names)
      as (l1 & n & l2 & Hsplit & Hl1).
    { exists (take (length names) numbers).
      destruct (drop (length names) numbers) as [|n l2] eqn:E.
      - apply (f_equal length) in E. rewrite length_drop in E. simpl in E. lia.
      - exists n, l2. split.
        + by rewrite <- E, take_drop.
        + rewrite length_take. lia. }
    rewrite Hsplit, imap_app. simpl.
    rewrite (mapM_first_failure _ (signal_channel names) _ _ _ IndexError);
      [done| |].
    + intros [i' m'] (i & m & [= -> ->] & Hj)%elem_of_lookup_imap.
      unfold signal_channel. simpl.
      destruct (names !! i) as [name|] eqn:E.
      * unfold Py.index. fold names. by rewrite E.
      * apply lookup_ge_None in E. apply lookup_lt_Some in Hj. lia.
    + unfold Py.index. fold names. simpl.
      assert (names !! (length l1 + 0) = None) as ->; [|done].
      apply lookup_ge_None. lia.
Qed.

(** ** Channels outside the window *)

Lemma take_rows_raises rows (a : matrix) i :
  i ∈ rows -> a !! i = None -> Np.take_rows rows a = Raise IndexError.
Proof.
  intros Hin Hi. unfold Np.take_rows.
  induction rows as [|r rows IH]; [by apply elem_of_nil in Hin|]. simpl.
  destruct (Py.index a r) as [row|e] eqn:E; simpl.
  - apply index_ok in E. unfold matrix in *.
    apply elem_of_cons in Hin as [->|Hin]; [by rewrite Hi in E|]. by rewrite IH.
  - unfold Py.index, matrix in *. destruct (a !! r); [discriminate E|].
    by injection E as <-.
Qed.

(** X9. When the motion window that the source returns has no row for one
    of the dashboard's motion channels, the tick raises [IndexError] (the
    [try] statement catches errors of brainflow only) and leaves the
    dashboard as it was. *)
Theorem motion_channel_out_of_range_raises DF self board eeg_data gyro_raw i :
  is_prepared board = true ->
  get_current_board_data board
    (plot_window_s self * eeg_sampling_rate self) DEFAULT_PRESET = Ok eeg_data ->
  get_current_board_data board
    (plot_window_s self * gyro_sampling_rate self) AUXILIARY_PRESET
  = Ok gyro_raw ->
  i ∈ gyro_channels self -> length gyro_raw <= i ->
  _update DF self board = Raised IndexError self.
Proof.
  intros Hp He Hg Hin Hlen. unfold _update, measure, pull_windows.
  rewrite Hp, He, Hg. simpl.
  rewrite (take_rows_raises _ _ i Hin); [done|]. by apply lookup_ge_None.
Qed.

(** ** Bad channels in the loop over the displayed channels *)

Lemma for_loop_invariant_elem {A B} (P : A -> Prop) (body : A -> B -> result A)
    items : forall acc acc',
  P acc ->
  (forall a x a', x ∈ items -> P a -> body a x = Ok a' -> P a') ->
  Py.for_loop body acc items = Ok acc' -> P acc'.
Proof.
  induction items as [|x rest IH]; intros acc acc' H0 Hstep; simpl.
  - by intros [= <-].
  - destruct (body acc x) as [a|] eqn:E; simpl; [|done].
    apply IH.
    + apply (Hstep acc x); [apply list_elem_of_here|done..].
    + intros a0 y a' Hy. apply Hstep. by apply list_elem_of_further.
Qed.

Lemma eeg_step_no_term DF self bad acc entry acc' :
  Channel.reference entry.2 = true \/ channel_in entry.2 bad = true ->
  eeg_step DF self bad acc entry = Ok acc' -> acc'.2 = acc.2.
Proof.
  intros Hch. destruct acc as [[eeg sums] idx]. destruct entry as [g ch].
  unfold eeg_step. intros H. simpl in *.
  destruct (Py.index eeg (Channel.ch_number ch)) as [r0|]; simpl in H; [|done].
  destruct (detrend DF r0) as [r1|]; simpl in H; [|done].
  destruct (perform_bandpass DF r1 _ _ _ _) as [r2|]; simpl in H; [|done].
  destruct (perform_bandstop DF r2 _ _ _ _) as [r3|]; simpl in H; [|done].
  destruct (if channel_in ch bad then _ else _) as [pen|]; simpl in H; [|done].
  destruct (metric_window self _) as [k|]; simpl in H; [|done].
  destruct (_ <? _)%Z; [by injection H as <-|].
  destruct (Channel.reference ch) eqn:Href; simpl in H; [by injection H as <-|].
  destruct Hch as [Hch|Hch]; [done|]. rewrite Hch in H.
  destruct (get_psd_welch DF _ _ _ _) as [psd|]; simpl in H; [|done].
  bind_cases H. by injection H as <-.
Qed.

(** X18. Bad channels and reference channels add nothing to the
    engagement index: when every displayed channel is a reference channel or
    bad, the engagement sum of the loop is zero, whatever the band powers. *)
Theorem bad_channels_do_not_engage DF self bad_channels eeg_data filtered sums
    engagement_sum :
  Forall (fun ch => Channel.reference ch = true
                    \/ channel_in ch bad_channels = true) (displayed self) ->
  eeg_processing DF self bad_channels eeg_data
  = Ok (filtered, sums, engagement_sum) ->
  engagement_sum = F64.zero.
Proof.
  intros Hall H. unfold eeg_processing in H.
  apply (for_loop_invariant_elem (fun acc => acc.2 = F64.zero)) in H;
    [done|done|].
  intros a [g ch] a' Hin Ha Hstep.
  rewrite (eeg_step_no_term DF self bad_channels a (g, ch) a'); [done| |done].
  simpl. apply elem_of_lookup_imap in Hin as (i & c & [= -> ->] & Hc).
  rewrite Forall_lookup in Hall. by apply (Hall i).
Qed.

(** ** Motion windows without rows or without samples *)

(** X10. A dashboard without motion channels never publishes: the window
    selected by an empty list of rows is empty, so every tick that gets to
    the guard on the window lengths is given up there; the dashboard stays
    as it was. *)
Theorem no_motion_channels_never_publishes DF self board :
  gyro_channels self = [] ->
  published_of (_update DF self board) = None
  /\ state_of (_update DF self board) = self.
Proof.
  intros Hg. unfold _update, measure, pull_windows. rewrite Hg.
  destruct (is_prepared board); simpl; [|done].
  destruct (get_current_board_data board _ DEFAULT_PRESET) as [eeg|e]; simpl.
  2: { destruct e as [code| | | | |]; try done. by destruct (exit_code_eqb _ _). }
  destruct (get_current_board_data board _ AUXILIARY_PRESET) as [gyro|e]; simpl.
  2: { destruct e as [code| | | | |]; try done. by destruct (exit_code_eqb _ _). }
  destruct (get_current_board_data board _ ANCILLARY_PRESET) as [ppg|e]; simpl.
  2: { destruct e as [code| | | | |]; try done. by destruct (exit_code_eqb _ _). }
  destruct (Py.index (ppg_channels self) 0) as [c|e]; simpl.
  2: { destruct e as [code| | | | |]; try done. by destruct (exit_code_eqb _ _). }
  destruct (Py.index ppg c) as [row|e]; simpl.
  2: { destruct e as [code| | | | |]; try done. by destruct (exit_code_eqb _ _). }
  by rewrite orb_true_r.
Qed.

Lemma head_movement_no_samples self gyro_data head :
  Forall (fun row => row = []) gyro_data ->
  head_movement_of self gyro_data = Ok head -> head = F64.nan.
Proof.
  intros Hrows. unfold head_movement_of.
  destruct (metric_window self _) as [k|]; simpl; [|done].
  intros [= <-].
  assert (Forall (fun row : list float => row = []) (Py.slice_last k gyro_data))
    as Hw.
  { unfold Py.slice_last. repeat destruct (_ : bool); [done|by apply Forall_drop..]. }
  assert (concat (map (map F64.abs) (Py.slice_last k gyro_data)) = []) as ->.
  { induction Hw as [|row rest -> _ IH]; [done|]. simpl. exact IH. }
  vm_compute. reflexivity.
Qed.

(** X11. The guard on the motion window counts its rows, not its samples:
    when the rows of the motion window hold no sample and the tick
    publishes, the head movement is NaN and so is the published power
    metric. *)
Theorem empty_motion_window_publishes_nan DF self board self' p :
  (forall eeg_data gyro_data ppg_data,
     pull_windows self board = Ok (eeg_data, gyro_data, ppg_data) ->
     Forall (fun row => row = []) gyro_data) ->
  _update DF self board = Done self' (Some p) ->
  pub_power p = F64.nan /\ power_metrics self' = F64.nan.
Proof.
  intros Hrows (idx & head & bands & Hm & He)%update_done.
  apply measure_some in Hm as (bad & sums & acc & Hphases & _).
  destruct Hphases as (eeg & gyro & ppg & _ & _ & _ & Hpull & _ & _ & Hhead & _).
  apply head_movement_no_samples in Hhead; [|by apply (Hrows eeg gyro ppg)].
  subst head. apply engage_done in He as [-> [= ->]]. simpl.
  by rewrite sub_nan_r, mul_nan_l, add_nan_r, float32_nan.
Qed.

(** ** Instances of these statements *)

Lemma tick_publishes_or_keeps_witness :
  (exists self' p,
     _update headband_filter headband_dashboard eeg_drained_board
     = Done self' (Some p))
  \/ state_of (_update headband_filter headband_dashboard eeg_drained_board)
     = headband_dashboard.
Proof.
  exact (tick_publishes_or_keeps headband_filter headband_dashboard
           eeg_drained_board headband_dashboard_reachable).
Defined.


Lemma bad_channels_are_signal_channels_witness :
  detect_bad_channels headband_dashboard noisy_window
  = Ok [Channel.Build_t 2 "Fp1" false true]
  /\ Forall (fun ch => Channel.reference ch = false)
       [Channel.Build_t 2 "Fp1" false true].
Proof.
  assert (detect_bad_channels headband_dashboard noisy_window
          = Ok [Channel.Build_t 2 "Fp1" false true]) as H
    by (vm_compute; reflexivity).
  split; [exact H|].
  exact (proj1 (proj2 (bad_channels_are_signal_channels headband_dashboard
                         noisy_window _ H))).
Defined.

Lemma fifth_displayed_reference_never_publishes_witness :
  displayed shown_reference_dashboard !! 4
  = Some (Channel.Build_t 5 "Fpz" true true)
  /\ published_of (_update even_filter shown_reference_dashboard full_board)
     = None.
Proof.
  assert (displayed shown_reference_dashboard !! 4
          = Some (Channel.Build_t 5 "Fpz" true true)) as H
    by (vm_compute; reflexivity).
  split; [exact H|].
  apply (fifth_displayed_reference_never_publishes even_filter
           shown_reference_dashboard full_board 4 _ H); [lia|reflexivity].
Defined.

Lemma rereference_keeps_shape_witness :
  rereference headband_dashboard two_samples = Ok two_samples_referenced
  /\ length two_samples_referenced = length two_samples
  /\ two_samples_referenced !! 5 = two_samples !! 5.
Proof.
  assert (rereference headband_dashboard two_samples
          = Ok two_samples_referenced) as H by (vm_compute; reflexivity).
  destruct (rereference_keeps_shape headband_dashboard two_samples
              two_samples_referenced H) as (Hlen & Hrows & _).
  split; [exact H|]. split; [exact Hlen|]. apply Hrows.
  vm_compute. intros Hin.
  repeat (apply elem_of_cons in Hin as [Hin|Hin]; [discriminate Hin|]).
  by apply elem_of_nil in Hin.
Defined.

Lemma ref_mode_without_reference_witness :
  exists eeg_data',
    rereference bare_dashboard two_samples = Ok eeg_data'
    /\ eeg_data' !! 1 = Some [F64.nan; F64.nan].
Proof.
  destruct (rereference bare_dashboard two_samples) as [eeg_data'|e] eqn:E.
  - exists eeg_data'. split; [reflexivity|].
    assert (reference bare_dashboard = "ref") as Hmode
      by (vm_compute; reflexivity).
    assert (Forall (fun ch => Channel.reference ch = false)
              (eeg_channels bare_dashboard)) as Hall.
    { vm_compute. repeat constructor. }
    destruct (ref_mode_without_reference bare_dashboard two_samples eeg_data'
                Hmode Hall E (Channel.Build_t 1 "TP9" false true))
      as (row & Hrow & Hnan).
    { vm_compute. apply list_elem_of_here. }
    simpl in Hrow. injection Hrow as <-. exact Hnan.
  - exfalso. vm_compute in E. discriminate E.
Defined.

Lemma short_windows_contribute_nothing_witness :
  exists idx head bands bad_channels,
    measure headband_filter headband_dashboard startup_board
    = Ok (Some (idx, head, bands))
    /\ tick_phases headband_filter headband_dashboard startup_board
         bad_channels (replicate 5 F64.zero) F64.zero head bands.
Proof.
  destruct (measure headband_filter headband_dashboard startup_board)
    as [[[[idx head] bands]|]|e] eqn:E.
  - destruct (short_windows_contribute_nothing headband_filter
                headband_dashboard startup_board idx head bands)
      as (bad & Hphases & _).
    + repeat split; intros; simpl in *;
        by match goal with
           | H : match ?row with [] => _ | _ => _ end = Ok _ |- _ =>
               destruct row; [discriminate H|injection H as <-]
           end.
    + intros eeg_data gyro_data ppg_data H. vm_compute in H.
      injection H as <- _ _. unfold short_rows. repeat constructor.
    + exact E.
    + exists idx, head, bands, bad. split; [reflexivity|exact Hphases].
  - exfalso. vm_compute in E. discriminate E.
  - exfalso. vm_compute in E. discriminate E.
Defined.

Lemma head_movement_in_unit_interval_witness :
  exists head,
    head_movement_of headband_dashboard jolt_then_rest = Ok head
    /\ (F64.is_nan head = true
        \/ (F64.leb F64.zero head = true /\ F64.leb head F64.one = true)).
Proof.
  destruct (head_movement_of headband_dashboard jolt_then_rest)
    as [head|e] eqn:E.
  - exists head. split; [reflexivity|].
    exact (head_movement_in_unit_interval headband_dashboard jolt_then_rest
             head E).
  - exfalso. vm_compute in E. discriminate E.
Defined.

Lemma set_parameters_capacities_witness :
  exists self',
    set_parameters headband_dashboard 60 5 (F64.of_Z 2) F64.one F64.zero
    = Ok self'
    /\ calib_length self' = 600%Z /\ hist_length self' = 50%Z.
Proof.
  destruct (set_parameters_capacities headband_dashboard 60 5
              (F64.of_Z 2) F64.one F64.zero)
    as (self' & H & Hc & Hh & _); [reflexivity|lia|lia|].
  exists self'. split; [exact H|]. split; [exact Hc|exact Hh].
Defined.

Lemma motion_channel_out_of_range_raises_witness :
  _update headband_filter headband_dashboard narrow_board
  = Raised IndexError headband_dashboard.
Proof.
  apply (motion_channel_out_of_range_raises headband_filter headband_dashboard
           narrow_board (replicate 6 [F64.zero; F64.zero])
           (replicate 2 [F64.zero; F64.zero]) 2).
  - reflexivity.
  - reflexivity.
  - reflexivity.
  - apply list_elem_of_further, list_elem_of_here.
  - simpl. lia.
Defined.

Lemma bad_channels_do_not_engage_witness :
  exists filtered,
    eeg_processing even_filter headband_dashboard
      (take 4 (eeg_channels headband_dashboard))
      (replicate 6 (replicate 384 F64.one))
    = Ok (filtered, replicate 5 (F64.of_Z 42), F64.zero).
Proof.
  destruct (eeg_processing even_filter headband_dashboard
              (take 4 (eeg_channels headband_dashboard))
              (replicate 6 (replicate 384 F64.one)))
    as [[[filtered sums] idx]|e] eqn:E.
  - exists filtered.
    assert (idx = F64.zero) as ->.
    { apply (bad_channels_do_not_engage even_filter headband_dashboard
               (take 4 (eeg_channels headband_dashboard))
               (replicate 6 (replicate 384 F64.one)) filtered sums idx);
        [|exact E].
      repeat (constructor; [right; vm_compute; reflexivity|]). constructor. }
    assert (sums = replicate 5 (F64.of_Z 42)) as ->; [|reflexivity].
    vm_compute in E. injection E as _ <-. vm_compute. reflexivity.
  - exfalso. vm_compute in E. discriminate E.
Defined.

Lemma no_motion_channels_never_publishes_witness :
  published_of (_update even_filter still_dashboard full_board) = None
  /\ state_of (_update even_filter still_dashboard full_board) = still_dashboard.
Proof.
  apply (no_motion_channels_never_publishes even_filter still_dashboard
           full_board).
  reflexivity.
Defined.

Lemma empty_motion_window_publishes_nan_witness :
  exists self' p,
    _update even_filter headband_dashboard motion_drained_board
    = Done self' (Some p)
    /\ pub_power p = F64.nan.
Proof.
  destruct (_update even_filter headband_dashboard motion_drained_board)
    as [self' [p|]|e self'] eqn:E.
  - exists self', p. split; [reflexivity|].
    apply (empty_motion_window_publishes_nan even_filter headband_dashboard
             motion_drained_board self' p); [|exact E].
    intros eeg_data gyro_data ppg_data H. vm_compute in H.
    injection H as _ <- _. repeat constructor.
  - exfalso. vm_compute in E. discriminate E.
  - exfalso. vm_compute in E. discriminate E.
Defined.

Lemma init_builds_channels_witness :
  exists self,
    __init__ headband_filter headband_info "mean" false = Ok self
    /\ length (eeg_channels self) = 5
    /\ eeg_channels self !! 4 = Some (Channel.Build_t 5 "Fpz" true false).
Proof.
  destruct (proj1 (init_builds_channels headband_filter headband_info
                     "mean" false))
    as (self & H & Hlen & _ & Hother & _); [simpl; lia|].
  exists self. split; [exact H|]. split; [exact Hlen|].
  exact (Hother 0 5 eq_refl).
Defined.

Lemma timeseries_curves_witness :
  exists curves,
    _init_timeseries headband_dashboard _init_pens.1 = Ok curves
    /\ length curves = 8.
Proof.
  destruct (proj1 (timeseries_curves headband_dashboard))
    as (curves & H & Hlen & _); [simpl; lia|].
  exists curves. split; [exact H|exact Hlen].
Defined.

Lemma lowered_capacity_not_enforced_witness :
  length (engagement_calib
            (state_of (run even_filter lowered_dashboard
                         (replicate 3 full_board)))) = 2
  /\ length (engagement_hist
               (state_of (run even_filter lowered_dashboard
                            (replicate 3 full_board)))) = 2.
Proof.
  destruct (lowered_capacity_not_enforced even_filter (replicate 3 full_board)
              lowered_dashboard) as [Hc Hh].
  split; [apply Hc|apply Hh]; vm_compute; reflexivity.
Defined.

Lemma oldest_entry_has_no_weight_witness :
  weighted_mean [F64.of_Z 100; F64.one; F64.one]
  = weighted_mean [F64.zero; F64.one; F64.one].
Proof.
  apply (proj1 (oldest_entry_has_no_weight (F64.of_Z 100) [F64.one; F64.one]));
    vm_compute; reflexivity.
Defined.
